(** * Sia renter host database: the host-entry slice (hostentry.go)

    A shallow embedding of [modules/renter/hostdb/hostentry.go] and the
    properties of its operations: [insertHost], [removeHost], [Host],
    [ActiveHosts], [AverageContractPrice] and [IsOffline].

    The Go methods mutate a [*HostDB] and call into parts of the package
    that live in other files (the scan queue, the weighted host tree, the
    logger, the address validator).  The embedding threads the database
    through a small state monad that also records, in order, every call
    that leaves this file, and can stop with a Go panic. *)

From stdpp Require Import base option list strings gmap fin_maps.
From Stdlib Require Import ZArith NArith Lia.
From Stdlib.Strings Require Import Byte.

Local Open Scope Z_scope.

(** ** Go values used by the file *)

(** Package [bytes]. *)
Module bytes.

Fixpoint Equal (a b : list byte) : bool :=
  match a, b with
  | [], [] => true
  | x :: a', y :: b' => Byte.eqb x y && Equal a' b'
  | _, _ => false
  end.

End bytes.

(** Package [time]: an instant is a count of nanoseconds since the zero
    [time.Time]; a [Duration] is an [int64] count of nanoseconds and
    [Time.Sub] saturates at the ends of that range. *)
Module time.

Abbreviation Time := Z.
Abbreviation Duration := Z.

Definition zero : Time := 0.

Definition minDuration : Duration := - 2 ^ 63.
Definition maxDuration : Duration := 2 ^ 63 - 1.

Definition Nanosecond : Duration := 1.
Definition Second : Duration := 1000000000 * Nanosecond.
Definition Hour : Duration := 3600 * Second.

Definition Sub (t u : Time) : Duration :=
  let d := t - u in
  if d <? minDuration then minDuration
  else if maxDuration <? d then maxDuration
  else d.

End time.

(** Package [types] of the repository, as far as this file uses it.

    Modelled from the spec: [types.Currency], [types.BlockHeight] and
    [types.SiaPublicKey] are declared outside hostentry.go.  A currency
    amount is an unbounded natural number that is never negative and whose
    zero value is the zero price; [Add] sums, and [Div64] divides by a
    [uint64], which faults on a zero divisor. *)
Module types.

Abbreviation BlockHeight := N.
Abbreviation Currency := N.

Definition ZeroCurrency : Currency := 0%N.

Definition Add (x y : Currency) : Currency := (x + y)%N.

(** [None] is the run-time fault of a division by zero. *)
Definition Div64 (x : Currency) (y : Z) : option Currency :=
  if y =? 0 then None else Some (x / Z.to_N y)%N.

Record SiaPublicKey := mkSiaPublicKey {
  Algorithm : list byte;
  Key : list byte
}.

Definition zeroSiaPublicKey : SiaPublicKey := mkSiaPublicKey [] [].

End types.

(** Package [modules] of the repository, as far as this file uses it. *)
Module modules.

Abbreviation NetAddress := string.

End modules.

(** Modelled from the spec: [modules.HostDBEntry] is declared outside
    hostentry.go.  It carries the host's address, its public key and the
    advertised settings, of which this file reads only the contract price;
    the remaining terms are an opaque payload. *)
Record HostDBEntry := mkHostDBEntry {
  NetAddress : modules.NetAddress;
  ContractPrice : types.Currency;
  OtherSettings : list byte;
  PublicKey : types.SiaPublicKey
}.

(** The composite literal [modules.HostDBEntry{}]. *)
Definition zeroHostDBEntry : HostDBEntry :=
  mkHostDBEntry EmptyString types.ZeroCurrency [] types.zeroSiaPublicKey.

(** A hostEntry represents a host on the network.  The Go struct embeds
    [modules.HostDBEntry]; the embedded value is the field
    [entry_HostDBEntry]. *)
Record hostEntry := mkHostEntry {
  entry_HostDBEntry : HostDBEntry;
  FirstSeen : types.BlockHeight;
  Weight : types.Currency;
  Reliability : types.Currency;
  LastScanned : time.Time;
  LastSeen : time.Time
}.

(** Conversions and [len]. *)
Definition uint64 (x : Z) : Z := x mod 2 ^ 64.
Definition len {A} (l : list A) : Z := Z.of_nat (length l).

(** ** Pointers *)

(** A [*hostEntry] is nil or the location of an entry in memory; a
    [*hostNode] is nil or the location of a node of the host tree. *)
Abbreviation loc := positive.
Abbreviation ptr := (option loc).
Definition nil : ptr := None.

(** ** What leaves the file

    Every call to a function defined elsewhere is recorded. *)
Inductive Event :=
| EvLock
| EvUnlock
| EvRLock
| EvRUnlock
| EvDebugf (msg : string)
| EvPrintf (msg : string)
| EvQueueHostEntry (h : ptr)
| EvManagedScanHost (h : ptr)
| EvRemoveNode (node : ptr)
| EvRandomHosts (n : Z) (exclude : list modules.NetAddress).

(** The pointers handed to the scan queue, in order. *)
Definition queued (evs : list Event) : list ptr :=
  omap (fun e => match e with EvQueueHostEntry h => Some h | _ => None end) evs.

(** The entries handed to [managedScanHost], in order. *)
Definition scanned (evs : list Event) : list ptr :=
  omap (fun e => match e with EvManagedScanHost h => Some h | _ => None end) evs.

Inductive Result (A : Type) :=
| Ok (a : A)
| Panic (msg : string).
Arguments Ok {A} a.
Arguments Panic {A} msg.

Section HostDB.

(** The state of the rest of the package (the scan pool, the host tree,
    whatever else a [HostDB] holds) is not visible from this file. *)
Variable Rest : Type.

(** The [HostDB] struct is declared outside hostentry.go; these are the
    fields the file uses, together with the memory its [*hostEntry]
    pointers refer to and the number of clock readings taken so far. *)
Record HostDB := mkHostDB {
  allHosts : gmap modules.NetAddress ptr;
  activeHosts : gmap modules.NetAddress ptr;
  blockHeight : types.BlockHeight;
  mem : gmap loc hostEntry;
  ticks : nat;
  rest : Rest
}.

Definition set_allHosts (f : gmap modules.NetAddress ptr -> gmap modules.NetAddress ptr)
    (s : HostDB) : HostDB :=
  mkHostDB (f (allHosts s)) (activeHosts s) (blockHeight s) (mem s) (ticks s) (rest s).

Definition set_activeHosts (f : gmap modules.NetAddress ptr -> gmap modules.NetAddress ptr)
    (s : HostDB) : HostDB :=
  mkHostDB (allHosts s) (f (activeHosts s)) (blockHeight s) (mem s) (ticks s) (rest s).

Definition set_mem (f : gmap loc hostEntry -> gmap loc hostEntry) (s : HostDB) : HostDB :=
  mkHostDB (allHosts s) (activeHosts s) (blockHeight s) (f (mem s)) (ticks s) (rest s).

Definition set_ticks (f : nat -> nat) (s : HostDB) : HostDB :=
  mkHostDB (allHosts s) (activeHosts s) (blockHeight s) (mem s) (f (ticks s)) (rest s).

Definition set_rest (f : Rest -> Rest) (s : HostDB) : HostDB :=
  mkHostDB (allHosts s) (activeHosts s) (blockHeight s) (mem s) (ticks s) (f (rest s)).

(** The entry a database holds for an address, if the address is bound to
    a pointer that is not nil. *)
Definition entryAt (s : HostDB) (addr : modules.NetAddress) : option hostEntry :=
  match allHosts s !! addr with
  | Some (Some l) => mem s !! l
  | _ => None
  end.

(** ** The monad

    A computation takes the database and yields a value or a panic, the
    database it leaves behind and the calls it made. *)
Record Outcome (A : Type) := mkOutcome {
  result : Result A;
  final : HostDB;
  events : list Event
}.
Arguments mkOutcome {A}.
Arguments result {A}.
Arguments final {A}.
Arguments events {A}.

Definition M (A : Type) : Type := HostDB -> Outcome A.

Definition ret {A} (a : A) : M A := fun s => mkOutcome (Ok a) s [].

Definition bind {A B} (m : M A) (k : A -> M B) : M B := fun s =>
  match m s with
  | mkOutcome (Ok a) s1 ev1 =>
      match k a s1 with
      | mkOutcome r s2 ev2 => mkOutcome r s2 (ev1 ++ ev2)
      end
  | mkOutcome (Panic msg) s1 ev1 => mkOutcome (Panic msg) s1 ev1
  end.

Notation "x <- m ;; k" := (bind m (fun x => k))
  (at level 100, m at next level, right associativity).
Notation "m ;;; k" := (bind m (fun _ => k))
  (at level 100, right associativity).

Definition panic {A} (msg : string) : M A := fun s =>
  mkOutcome (Panic msg) s [].

Definition get : M HostDB := fun s => mkOutcome (Ok s) s [].
Definition modify (f : HostDB -> HostDB) : M unit := fun s =>
  mkOutcome (Ok tt) (f s) [].
Definition emit (e : Event) : M unit := fun s => mkOutcome (Ok tt) s [e].

(** [defer d] before [body]: [d] runs when [body] is over, also when it
    panicked. *)
Definition defer {A} (d : M unit) (body : M A) : M A := fun s =>
  match body s with
  | mkOutcome r s1 ev1 =>
      match d s1 with
      | mkOutcome (Ok _) s2 ev2 => mkOutcome r s2 (ev1 ++ ev2)
      | mkOutcome (Panic msg) s2 ev2 => mkOutcome (Panic msg) s2 (ev1 ++ ev2)
      end
  end.

(** Reading through a pointer. *)
Definition deref (p : ptr) : M hostEntry := fun s =>
  match p with
  | Some l =>
      match mem s !! l with
      | Some e => ret e s
      | None => panic "invalid memory address or nil pointer dereference" s
      end
  | None => panic "invalid memory address or nil pointer dereference" s
  end.

(** [&hostEntry{...}]: a new object at a location not in use. *)
Definition new (e : hostEntry) : M ptr := fun s =>
  let l := fresh (dom (mem s)) in
  mkOutcome (Ok (Some l)) (set_mem (insert l e) s) [].

(** ** The calls that leave the file *)

(** The functions the file calls but does not define. *)
Record Collaborators := mkCollaborators {
  (** [NetAddress.IsValid]: [None] is the nil error. *)
  NetAddress_IsValid : modules.NetAddress -> option string;
  (** The constant [DefaultReliability]. *)
  DefaultReliability : types.Currency;
  (** [time.Now]: the n-th reading of the clock. *)
  time_Now : nat -> time.Time;
  (** Modelled from the spec: [hdb.queueHostEntry] is defined outside
      hostentry.go.  It adds a reference to the entry to the scanner's
      bounded work queue, which belongs to the rest of the package: it may
      read the whole database and changes the rest only.  What the queue
      does with the reference is left open. *)
  do_queueHostEntry : ptr -> HostDB -> Rest;
  (** What [hdb.managedScanHost] does to the database; it runs without
      the lock, so whatever happens to the database meanwhile is part of
      its effect. *)
  do_managedScanHost : ptr -> HostDB -> HostDB;
  (** Modelled from the spec: [removeNode] is defined outside
      hostentry.go.  It is a method of the [hostNode], not of the database,
      and tells the sampler that the node is gone: it may read the whole
      database and changes the rest only. *)
  do_removeNode : ptr -> HostDB -> Rest;
  (** What [hdb.RandomHosts] returns and does to the database. *)
  do_RandomHosts : Z -> list modules.NetAddress -> HostDB ->
                   list HostDBEntry * HostDB
}.

Variable C : Collaborators.

Definition Lock : M unit := emit EvLock.
Definition Unlock : M unit := emit EvUnlock.
Definition RLock : M unit := emit EvRLock.
Definition RUnlock : M unit := emit EvRUnlock.
Definition Debugf (msg : string) : M unit := emit (EvDebugf msg).
Definition Printf (msg : string) : M unit := emit (EvPrintf msg).

Definition queueHostEntry (h : ptr) : M unit := fun s =>
  mkOutcome (Ok tt) (set_rest (fun _ => do_queueHostEntry C h s) s)
    [EvQueueHostEntry h].

Definition managedScanHost (h : ptr) : M unit := fun s =>
  mkOutcome (Ok tt) (do_managedScanHost C h s) [EvManagedScanHost h].

Definition removeNode (node : ptr) : M unit := fun s =>
  mkOutcome (Ok tt) (set_rest (fun _ => do_removeNode C node s) s)
    [EvRemoveNode node].

Definition RandomHosts (n : Z) (exclude : list modules.NetAddress)
    : M (list HostDBEntry) := fun s =>
  let r := do_RandomHosts C n exclude s in
  mkOutcome (Ok r.1) r.2 [EvRandomHosts n exclude].

(** [time.Since(t)] is [time.Now().Sub(t)]; the clock is read once. *)
Definition time_Since (t : time.Time) : M time.Duration := fun s =>
  mkOutcome (Ok (time.Sub (time_Now C (ticks s)) t)) (set_ticks S s) [].

(** Modelled from the spec: the constant [uptimeThreshold] is declared
    outside hostentry.go; the staleness threshold is three days. *)
Definition uptimeThreshold : time.Duration := 3 * 24 * time.Hour.

(** ** hostentry.go *)

(** The entry [insertHost] builds: the fields it does not name keep their
    zero values. *)
Definition newHostEntry (height : types.BlockHeight) (host : HostDBEntry) : hostEntry :=
  {| entry_HostDBEntry := host;
     FirstSeen := height;
     Weight := types.ZeroCurrency;
     Reliability := DefaultReliability C;
     LastScanned := time.zero;
     LastSeen := time.zero |}.

(** insertHost adds a host entry to the state. *)
Definition insertHost (host : HostDBEntry) : M unit :=
  match NetAddress_IsValid C (NetAddress host) with
  | Some err =>
      Debugf ("WARN: host '" +:+ NetAddress host +:+
              "' has an invalid NetAddress: " +:+ err)
  | None =>
      hdb <- get ;;
      known <- match allHosts hdb !! NetAddress host with
               | Some knownHost =>
                   k <- deref knownHost ;;
                   ret (bytes.Equal (types.Key (PublicKey host))
                          (types.Key (PublicKey (entry_HostDBEntry k))))
               | None => ret false
               end ;;
      if (known : bool) then ret tt
      else
        h <- new (newHostEntry (blockHeight hdb) host) ;;
        modify (set_allHosts (insert (NetAddress host) h)) ;;;
        queueHostEntry h
  end.

(** Remove deletes an entry from the hostdb.  The [error] it returns is
    [None] for nil. *)
Definition removeHost (addr : modules.NetAddress) : M (option string) :=
  hdb <- get ;;
  match activeHosts hdb !! addr with
  | Some node =>
      removeNode node ;;;
      modify (set_activeHosts (delete addr))
  | None => ret tt
  end ;;;
  modify (set_allHosts (delete addr)) ;;;
  ret None.

(** Host returns the HostSettings associated with the specified
    NetAddress. *)
Definition Host (addr : modules.NetAddress) : M (HostDBEntry * bool) :=
  Lock ;;;
  defer Unlock
    (hdb <- get ;;
     match allHosts hdb !! addr with
     | None | Some None => ret (zeroHostDBEntry, false)
     | Some entry =>
         e <- deref entry ;;
         ret (entry_HostDBEntry e, true)
     end).

(** ActiveHosts returns the hosts that can be randomly selected out of the
    hostdb. *)
Definition ActiveHosts : M (list HostDBEntry) :=
  RLock ;;;
  hdb <- get ;;
  let numHosts := Z.of_nat (size (activeHosts hdb)) in
  RUnlock ;;;
  sortedHosts <- RandomHosts numHosts [] ;;
  ret sortedHosts.

(** [totalPrice.Div64(y)], which panics when [y] is zero. *)
Definition Currency_Div64 (x : types.Currency) (y : Z) : M types.Currency :=
  match types.Div64 x y with
  | Some c => ret c
  | None => panic "division by zero"
  end.

(** AverageContractPrice returns the average price of a host. *)
Definition AverageContractPrice : M types.Currency :=
  let totalPrice := types.ZeroCurrency in
  let sampleSize := 18 in
  hosts <- RandomHosts sampleSize [] ;;
  if len hosts =? 0 then ret totalPrice
  else
    let totalPrice :=
      fold_left (fun acc host => types.Add acc (ContractPrice host)) hosts totalPrice in
    Currency_Div64 totalPrice (uint64 (len hosts)).

(** How the block of [IsOffline] that scans ends: with a [return], or by
    falling through with the value of [lastSeen]. *)
Inductive Flow :=
| Return (b : bool)
| Fallthrough (lastSeen : time.Time).

(** IsOffline reports whether h is offline. *)
Definition IsOffline (addr : modules.NetAddress) : M bool :=
  RLock ;;;
  hdb <- get ;;
  let entry := default nil (allHosts hdb !! addr) in
  let ok := bool_decide (is_Some (allHosts hdb !! addr)) in
  seen <- (if ok then
             e <- deref entry ;;
             ret (LastSeen e, LastScanned e)
           else ret (time.zero, time.zero)) ;;
  let lastSeen := seen.1 in
  let lastScanned := seen.2 in
  RUnlock ;;;
  if negb ok then ret false
  else
    d <- time_Since lastScanned ;;
    flow <- (if d >? uptimeThreshold then
               managedScanHost entry ;;;
               RLock ;;;
               hdb <- get ;;
               let entry := default nil (allHosts hdb !! addr) in
               let ok := bool_decide (is_Some (allHosts hdb !! addr)) in
               lastSeen <- (if ok then
                              e <- deref entry ;;
                              ret (LastSeen e)
                            else ret lastSeen) ;;
               RUnlock ;;;
               if negb ok then
                 Printf ("WARN: no entry in allHosts for " +:+ addr +:+
                         " immediately after scanning") ;;;
                 ret (Return false)
               else ret (Fallthrough lastSeen)
             else ret (Fallthrough lastSeen)) ;;
    match flow with
    | Return b => ret b
    | Fallthrough lastSeen =>
        d <- time_Since lastSeen ;;
        ret (d >? uptimeThreshold)
    end.

(** ** Vocabulary of the properties *)

(** The database as [insertHost] leaves it when it creates an entry: a new
    object holds the entry, and the address is bound to it. *)
Definition stored (s : HostDB) (host : HostDBEntry) : HostDB :=
  let l := fresh (dom (mem s)) in
  set_allHosts (insert (NetAddress host) (Some l))
    (set_mem (insert l (newHostEntry (blockHeight s) host)) s).

(** The outcome of [insertHost] when it creates an entry. *)
Definition created (s : HostDB) (host : HostDBEntry) : Outcome unit :=
  let h := Some (fresh (dom (mem s))) in
  mkOutcome (Ok tt)
    (set_rest (fun _ => do_queueHostEntry C h (stored s host)) (stored s host))
    [EvQueueHostEntry h].

(** What [RandomHosts] promises about the size of its answer: asked for
    [n] hosts, it returns at most [n]. *)
Definition RandomHosts_bounded : Prop :=
  forall n exclude s, 0 <= n -> len (do_RandomHosts C n exclude s).1 <= n.

(** The sum of the contract prices of a list of hosts. *)
Definition totalContractPrice (hosts : list HostDBEntry) : types.Currency :=
  foldr (fun host acc => (ContractPrice host + acc)%N) 0%N hosts.

(** [time.Since(t)] at the n-th reading of the clock. *)
Definition elapsedAt (n : nat) (t : time.Time) : time.Duration :=
  time.Sub (time_Now C n) t.

(** The warning [IsOffline] logs when the entry is gone after the scan. *)
Definition goneWarning (addr : modules.NetAddress) : string :=
  "WARN: no entry in allHosts for " +:+ addr +:+ " immediately after scanning".

End HostDB.

Arguments stored {Rest}.
Arguments created {Rest}.
Arguments RandomHosts_bounded {Rest}.
Arguments elapsedAt {Rest}.
Arguments mkHostDB {Rest}.
Arguments mkOutcome {Rest A}.
Arguments result {Rest A}.
Arguments final {Rest A}.
Arguments events {Rest A}.
Arguments allHosts {Rest}.
Arguments activeHosts {Rest}.
Arguments blockHeight {Rest}.
Arguments mem {Rest}.
Arguments ticks {Rest}.
Arguments rest {Rest}.
Arguments entryAt {Rest}.
Arguments set_allHosts {Rest}.
Arguments set_activeHosts {Rest}.
Arguments set_mem {Rest}.
Arguments set_ticks {Rest}.
Arguments set_rest {Rest}.
Arguments ret {Rest A}.
Arguments bind {Rest A B}.
Arguments insertHost {Rest}.
Arguments removeHost {Rest}.
Arguments Host {Rest}.
Arguments ActiveHosts {Rest}.
Arguments AverageContractPrice {Rest}.
Arguments IsOffline {Rest}.
Arguments RandomHosts {Rest}.
Arguments newHostEntry {Rest}.
Arguments NetAddress_IsValid {Rest}.
Arguments DefaultReliability {Rest}.
Arguments time_Now {Rest}.
Arguments do_queueHostEntry {Rest}.
Arguments do_managedScanHost {Rest}.
Arguments do_removeNode {Rest}.
Arguments do_RandomHosts {Rest}.

(** ** A concrete package around the file

    The rest of the package is a scan queue and the list of tree nodes
    taken out; addresses are valid unless empty; the clock advances by one
    hour per reading; a scan is given as a parameter, and [RandomHosts]
    hands out the first hosts of a fixed list. *)
Module Sample.

Record Rest := mkRest {
  scanQueue : list ptr;
  removedNodes : list ptr
}.

Definition IsValid (addr : modules.NetAddress) : option string :=
  if bool_decide (addr = EmptyString) then Some "missing port in address"%string
  else None.

Definition clock (n : nat) : time.Time :=
  17700000 * time.Hour + Z.of_nat n * time.Hour.

Definition enqueue (h : ptr) (s : HostDB Rest) : Rest :=
  mkRest (scanQueue (rest s) ++ [h]) (removedNodes (rest s)).

Definition takeOut (node : ptr) (s : HostDB Rest) : Rest :=
  mkRest (scanQueue (rest s)) (removedNodes (rest s) ++ [node]).

Definition pick (pool : list HostDBEntry) (n : Z) (exclude : list modules.NetAddress)
    (s : HostDB Rest) : list HostDBEntry * HostDB Rest :=
  (take (Z.to_nat n)
     (filter (fun h => NetAddress h ∉ exclude) pool), s).

Definition package (scan : ptr -> HostDB Rest -> HostDB Rest)
    (pool : list HostDBEntry) : Collaborators Rest :=
  {| NetAddress_IsValid := IsValid;
     DefaultReliability := 20%N;
     time_Now := clock;
     do_queueHostEntry := enqueue;
     do_managedScanHost := scan;
     do_removeNode := takeOut;
     do_RandomHosts := pick pool |}.

(** A scan that finds the host gone: meanwhile it has been removed. *)
Definition scanGone (addr : modules.NetAddress) (h : ptr) (s : HostDB Rest) : HostDB Rest :=
  set_allHosts (delete addr) s.

(** A scan that does nothing. *)
Definition scanIdle (h : ptr) (s : HostDB Rest) : HostDB Rest := s.

Definition key1 : types.SiaPublicKey := types.mkSiaPublicKey [x65; x64] [x01; x02; x03].
Definition key2 : types.SiaPublicKey := types.mkSiaPublicKey [x65; x64] [x01; x02; x04].

Definition hostA : HostDBEntry := mkHostDBEntry "a.example:9982" 30%N [] key1.
Definition hostA' : HostDBEntry := mkHostDBEntry "a.example:9982" 50%N [] key2.
Definition hostB : HostDBEntry := mkHostDBEntry "b.example:9982" 11%N [] key2.
Definition hostBad : HostDBEntry := mkHostDBEntry "" 7%N [] key1.

Definition empty : HostDB Rest :=
  mkHostDB ∅ ∅ 100%N ∅ 0%nat (mkRest [] []).

(** Host A as found at height 90, scanned ten hours before the first
    reading of the clock and last seen a hundred hours before it. *)
Definition entryA : hostEntry :=
  mkHostEntry hostA 90%N 5%N 25%N
    (17699990 * time.Hour) (17699900 * time.Hour).

(** Host B as inserted at height 95 and never scanned. *)
Definition entryB : hostEntry :=
  mkHostEntry hostB 95%N 0%N 20%N time.zero time.zero.

(** A database that knows A (active, at node 7) and B, and holds a nil
    pointer for a third address. *)
Definition knownHosts : gmap string (option positive) :=
  <["a.example:9982"%string := Some 1%positive]>
    (<["b.example:9982"%string := Some 2%positive]>
       (<["n.example:9982"%string := None]> ∅)).

Definition knownActive : gmap string (option positive) :=
  <["a.example:9982"%string := Some 7%positive]> ∅.

Definition knownMem : gmap positive hostEntry :=
  <[1%positive := entryA]> (<[2%positive := entryB]> ∅).

Definition known : HostDB Rest :=
  mkHostDB knownHosts knownActive 100%N knownMem 0%nat (mkRest [] []).

End Sample.

(** ** AllHosts, and what a sound database looks like *)

Section Listing.

Context {Rest : Type}.

(** The body of the [range] loop of [AllHosts] over the entries still to
    visit: [hosts] is the slice built so far. *)
Fixpoint AllHosts_range (entries : list (string * ptr)) (hosts : list HostDBEntry)
    : M Rest (list HostDBEntry) :=
  match entries with
  | [] => ret hosts
  | (_, entry) :: entries' =>
      bind (deref Rest entry) (fun e =>
      AllHosts_range entries' (hosts ++ [entry_HostDBEntry e]))
  end.

(** AllHosts returns all of the hosts known to the hostdb, including the
    inactive ones.  A [range] over a Go map visits the entries in an order
    the run time chooses: [order] is that choice, applied to the entries of
    the map. *)
Definition AllHosts (order : list (string * ptr) -> list (string * ptr))
    : M Rest (list HostDBEntry) :=
  bind (RLock Rest) (fun _ =>
  defer Rest (RUnlock Rest)
    (bind (get Rest) (fun hdb =>
     AllHosts_range (order (map_to_list (allHosts hdb))) []))).

(** The entry a pointer refers to. *)
Definition entryOf (s : HostDB Rest) (p : ptr) : option hostEntry :=
  match p with
  | Some l => mem s !! l
  | None => None
  end.

(** The entries of the registry, in the order of the map's own listing. *)
Definition registryEntries (s : HostDB Rest) : list hostEntry :=
  omap (fun ap => entryOf s ap.2) (map_to_list (allHosts s)).

(** Every address of the registry is bound to a pointer to an entry: no
    nil pointer, no pointer to nothing. *)
Definition registry_ok (s : HostDB Rest) : Prop :=
  map_Forall (fun _ p => is_Some (entryOf s p)) (allHosts s).

(** Every entry of the registry is bound under its own address. *)
Definition keyed (s : HostDB Rest) : Prop :=
  map_Forall
    (fun addr p =>
       match entryOf s p with
       | Some e => NetAddress (entry_HostDBEntry e) = addr
       | None => True
       end)
    (allHosts s).

(** The active set is part of the registry. *)
Definition active_known (s : HostDB Rest) : Prop :=
  dom (activeHosts s) ⊆ dom (allHosts s).

(** The database as [managedScanHost] leaves it when [IsOffline] calls it
    on [p]: the clock has been read once before. *)
Definition afterScan (C : Collaborators Rest) (s : HostDB Rest) (p : ptr)
    : HostDB Rest :=
  do_managedScanHost C p (set_ticks S s).

End Listing.

(** A sample database without the nil pointer: it knows A (active) and B. *)
Module Tidy.

Definition hosts : gmap string (option positive) :=
  <["a.example:9982"%string := Some 1%positive]>
    (<["b.example:9982"%string := Some 2%positive]> ∅).

Definition db : HostDB Sample.Rest :=
  mkHostDB hosts Sample.knownActive 100%N Sample.knownMem 0%nat (Sample.mkRest [] []).

(** A scan that finds the host: it stamps the entry with the time of the
    scan. *)
Definition scanSeen (now : time.Time) (h : ptr) (s : HostDB Sample.Rest)
    : HostDB Sample.Rest :=
  match h with
  | Some l =>
      set_mem (alter (fun e =>
        mkHostEntry (entry_HostDBEntry e) (FirstSeen e) (Weight e) (Reliability e)
          now now) l) s
  | None => s
  end.

End Tidy.

(** * Properties *)

(** ** Helper facts *)

Lemma bytes_Equal_refl (a : list byte) : bytes.Equal a a = true.
Proof.
  induction a as [|x a IH]; [reflexivity|].
  simpl. rewrite IH, andb_true_r. now apply Byte.byte_dec_lb.
Qed.

Lemma bytes_Equal_eq (a b : list byte) : bytes.Equal a b = true <-> a = b.
Proof.
  split; [|intros ->; apply bytes_Equal_refl].
  revert b. induction a as [|x a IH]; intros [|y b]; simpl; try done.
  intros [Hxy Hab]%andb_true_iff.
  apply Byte.byte_dec_bl in Hxy. apply IH in Hab. congruence.
Qed.

Lemma bytes_Equal_neq (a b : list byte) : a ≠ b -> bytes.Equal a b = false.
Proof.
  intros Hne. destruct (bytes.Equal a b) eqn:E; [|done].
  now apply bytes_Equal_eq in E.
Qed.

Section Facts.

Context {Rest : Type} (C : Collaborators Rest).

Implicit Types (s : HostDB Rest) (host : HostDBEntry) (addr : modules.NetAddress).

Lemma bind_Ok {A B} (m : M Rest A) (k : A -> M Rest B) s a s1 ev1 o :
  m s = mkOutcome (Ok a) s1 ev1 ->
  k a s1 = o ->
  bind m k s = mkOutcome (result o) (final o) (ev1 ++ events o).
Proof. intros Hm Hk. unfold bind. rewrite Hm, Hk. now destruct o. Qed.

Lemma bind_Panic {A B} (m : M Rest A) (k : A -> M Rest B) s msg s1 ev1 :
  m s = mkOutcome (Panic msg) s1 ev1 ->
  bind m k s = mkOutcome (Panic msg) s1 ev1.
Proof. intros Hm. unfold bind. now rewrite Hm. Qed.

Lemma fresh_unused s : mem s !! fresh (dom (mem s)) = None.
Proof. apply not_elem_of_dom, is_fresh. Qed.


Lemma insertHost_on_invalid s host err :
  NetAddress_IsValid C (NetAddress host) = Some err ->
  insertHost C host s =
    mkOutcome (Ok tt) s
      [EvDebugf ("WARN: host '" +:+ NetAddress host +:+
                 "' has an invalid NetAddress: " +:+ err)].
Proof. intros Hv. unfold insertHost. now rewrite Hv. Qed.

Lemma insertHost_absent s host :
  NetAddress_IsValid C (NetAddress host) = None ->
  allHosts s !! NetAddress host = None ->
  insertHost C host s = created C s host.
Proof.
  intros Hv Hl. unfold insertHost. rewrite Hv.
  unfold bind, get; simpl. now rewrite Hl.
Qed.

Lemma insertHost_same_key s host l known :
  NetAddress_IsValid C (NetAddress host) = None ->
  allHosts s !! NetAddress host = Some (Some l) ->
  mem s !! l = Some known ->
  types.Key (PublicKey host) = types.Key (PublicKey (entry_HostDBEntry known)) ->
  insertHost C host s = mkOutcome (Ok tt) s [].
Proof.
  intros Hv Hl Hm Hk. unfold insertHost. rewrite Hv.
  unfold bind, get; simpl. rewrite Hl; simpl. unfold deref. rewrite Hm; simpl.
  now rewrite Hk, bytes_Equal_refl.
Qed.

Lemma insertHost_other_key s host l known :
  NetAddress_IsValid C (NetAddress host) = None ->
  allHosts s !! NetAddress host = Some (Some l) ->
  mem s !! l = Some known ->
  types.Key (PublicKey host) ≠ types.Key (PublicKey (entry_HostDBEntry known)) ->
  insertHost C host s = created C s host.
Proof.
  intros Hv Hl Hm Hk. unfold insertHost. rewrite Hv.
  unfold bind, get; simpl. rewrite Hl; simpl. unfold deref. rewrite Hm; simpl.
  now rewrite (bytes_Equal_neq _ _ Hk).
Qed.

Lemma entryAt_lookup s addr e :
  entryAt s addr = Some e ->
  exists l, allHosts s !! addr = Some (Some l) /\ mem s !! l = Some e.
Proof.
  unfold entryAt. destruct (allHosts s !! addr) as [[l|]|]; try done. eauto.
Qed.

End Facts.

(** ** insertHost *)

Section InsertHost.

Context {Rest : Type} (C : Collaborators Rest).

Implicit Types (s : HostDB Rest) (host : HostDBEntry) (addr : modules.NetAddress).

(** Whatever the database holds, a second [insertHost] of the same host
    right after the first changes neither the result nor the database, and
    hands nothing more to the scan queue. *)
Lemma insertHost_twice s host :
  let once := insertHost C host s in
  let twice := bind (insertHost C host) (fun _ => insertHost C host) s in
  result twice = result once /\ final twice = final once /\
  queued (events twice) = queued (events once).
Proof.
  assert (Hcreated : NetAddress_IsValid C (NetAddress host) = None ->
            insertHost C host (final (created C s host)) =
              mkOutcome (Ok tt) (final (created C s host)) []).
  { intros Hv.
    apply insertHost_same_key
      with (l := fresh (dom (mem s))) (known := newHostEntry C (blockHeight s) host);
      [done|simpl; apply lookup_insert_eq|simpl; apply lookup_insert_eq|done]. }
  intros once twice. subst once twice.
  destruct (NetAddress_IsValid C (NetAddress host)) as [err|] eqn:Hv.
  { rewrite (bind_Ok _ _ _ _ _ _ _ (insertHost_on_invalid C s host err Hv) eq_refl).
    now rewrite !(insertHost_on_invalid C s host err Hv). }
  destruct (allHosts s !! NetAddress host) as [[l|]|] eqn:Hl.
  - destruct (mem s !! l) as [known|] eqn:Hm.
    + destruct (bytes.Equal (types.Key (PublicKey host))
                  (types.Key (PublicKey (entry_HostDBEntry known)))) eqn:Hk.
      * apply bytes_Equal_eq in Hk.
        rewrite (bind_Ok _ _ _ _ _ _ _
                   (insertHost_same_key C s host l known Hv Hl Hm Hk) eq_refl).
        now rewrite !(insertHost_same_key C s host l known Hv Hl Hm Hk).
      * assert (Hne : types.Key (PublicKey host) ≠
                      types.Key (PublicKey (entry_HostDBEntry known)))
          by (intros E%bytes_Equal_eq; congruence).
        rewrite (bind_Ok _ _ _ _ _ _ _
                   (insertHost_other_key C s host l known Hv Hl Hm Hne)
                   (Hcreated eq_refl)).
        now rewrite (insertHost_other_key C s host l known Hv Hl Hm Hne).
    + assert (Hp : insertHost C host s =
                   mkOutcome (Panic "invalid memory address or nil pointer dereference")
                     s []).
      { unfold insertHost. rewrite Hv. unfold bind, get; simpl.
        rewrite Hl; simpl. unfold deref. now rewrite Hm. }
      rewrite (bind_Panic _ _ _ _ _ _ Hp). now rewrite Hp.
  - assert (Hp : insertHost C host s =
                 mkOutcome (Panic "invalid memory address or nil pointer dereference")
                   s []).
    { unfold insertHost. rewrite Hv. unfold bind, get; simpl. now rewrite Hl. }
    rewrite (bind_Panic _ _ _ _ _ _ Hp). now rewrite Hp.
  - rewrite (bind_Ok _ _ _ _ _ _ _ (insertHost_absent C s host Hv Hl)
               (Hcreated eq_refl)).
    now rewrite (insertHost_absent C s host Hv Hl).
Qed.

(** C1.  When the address of the candidate is bound to an entry whose
    public key has the same bytes, [insertHost] returns normally, leaves
    the whole database as it was (so the entry, with its FirstSeen and
    Reliability, is the one that was there) and hands nothing to the scan
    queue; doing it twice gives what doing it once gives. *)
Theorem insertHost_known_is_noop s host known :
  entryAt s (NetAddress host) = Some known ->
  types.Key (PublicKey (entry_HostDBEntry known)) = types.Key (PublicKey host) ->
  let once := insertHost C host s in
  let twice := bind (insertHost C host) (fun _ => insertHost C host) s in
  result once = Ok tt /\ final once = s /\ queued (events once) = [] /\
  entryAt (final once) (NetAddress host) = Some known /\
  result twice = Ok tt /\ final twice = s /\ queued (events twice) = [].
Proof.
  intros He Hk once twice.
  destruct (entryAt_lookup s _ _ He) as (l & Hl & Hm).
  assert (Honce : result once = Ok tt /\ final once = s /\ queued (events once) = []).
  { subst once. destruct (NetAddress_IsValid C (NetAddress host)) as [err|] eqn:Hv.
    - now rewrite (insertHost_on_invalid C s host err Hv).
    - now rewrite (insertHost_same_key C s host l known Hv Hl Hm (eq_sym Hk)). }
  destruct Honce as (Hr & Hf & Hq).
  destruct (insertHost_twice s host) as (Hr2 & Hf2 & Hq2).
  fold once twice in Hr2, Hf2, Hq2.
  rewrite Hr2, Hf2, Hq2, Hf. done.
Qed.

(** C2.  When the address-validity check returns an error, [insertHost]
    logs, returns normally (it has no error to hand back) and leaves the
    whole database, so the registry, the active set and the scan queue, as
    it was. *)
Theorem insertHost_invalid_address_discarded s host err :
  NetAddress_IsValid C (NetAddress host) = Some err ->
  let o := insertHost C host s in
  result o = Ok tt /\ final o = s /\
  allHosts (final o) = allHosts s /\ activeHosts (final o) = activeHosts s /\
  rest (final o) = rest s /\
  queued (events o) = [] /\
  events o = [EvDebugf ("WARN: host '" +:+ NetAddress host +:+
                        "' has an invalid NetAddress: " +:+ err)].
Proof.
  intros Hv o. subst o. now rewrite (insertHost_on_invalid C s host err Hv).
Qed.

(** What holds of the outcome when [insertHost] creates an entry. *)
Lemma created_facts s host :
  let o := created C s host in
  let l := fresh (dom (mem s)) in
  let e := newHostEntry C (blockHeight s) host in
  result o = Ok tt /\
  allHosts (final o) !! NetAddress host = Some (Some l) /\
  mem (final o) !! l = Some e /\
  mem s !! l = None /\
  events o = [EvQueueHostEntry (Some l)] /\
  rest (final o) = do_queueHostEntry C (Some l) (stored C s host) /\
  (forall addr, addr ≠ NetAddress host ->
     allHosts (final o) !! addr = allHosts s !! addr) /\
  (forall l', l' ≠ l -> mem (final o) !! l' = mem s !! l') /\
  activeHosts (final o) = activeHosts s /\
  blockHeight (final o) = blockHeight s.
Proof.
  simpl. repeat split.
  - apply lookup_insert_eq.
  - apply lookup_insert_eq.
  - apply fresh_unused.
  - intros addr Hne. now apply lookup_insert_ne.
  - intros l' Hne. now apply lookup_insert_ne.
Qed.

(** C7.  For a candidate with a valid address that is new to the registry,
    or bound to an entry with another public key, [insertHost] binds the
    address to a new entry whose FirstSeen is the current block height,
    whose Reliability is the default and whose settings are the
    candidate's, hands the pointer to that same entry to the scan queue,
    and makes the registry at most one larger. *)
Theorem insertHost_creates_entry s host :
  NetAddress_IsValid C (NetAddress host) = None ->
  (allHosts s !! NetAddress host = None \/
   exists known, entryAt s (NetAddress host) = Some known /\
     types.Key (PublicKey (entry_HostDBEntry known)) ≠ types.Key (PublicKey host)) ->
  let o := insertHost C host s in
  exists l e,
    result o = Ok tt /\
    allHosts (final o) !! NetAddress host = Some (Some l) /\
    mem (final o) !! l = Some e /\
    entryAt (final o) (NetAddress host) = Some e /\
    mem s !! l = None /\
    FirstSeen e = blockHeight s /\
    Reliability e = DefaultReliability C /\
    entry_HostDBEntry e = host /\
    events o = [EvQueueHostEntry (Some l)] /\
    rest (final o) = do_queueHostEntry C (Some l) (stored C s host) /\
    (size (allHosts (final o)) <= S (size (allHosts s)))%nat /\
    (forall addr, addr ≠ NetAddress host ->
       allHosts (final o) !! addr = allHosts s !! addr).
Proof.
  intros Hv Hcase o.
  assert (Ho : o = created C s host).
  { subst o. destruct Hcase as [Hl|(known & He & Hk)].
    - now apply insertHost_absent.
    - destruct (entryAt_lookup s _ _ He) as (l & Hl & Hm).
      apply (insertHost_other_key C s host l known Hv Hl Hm). congruence. }
  rewrite Ho. clear Ho o.
  destruct (created_facts s host) as (Hr & Hl & Hm & Hfresh & Hev & Hrest & Hothers & _).
  exists (fresh (dom (mem s))), (newHostEntry C (blockHeight s) host).
  repeat split; try done.
  - unfold entryAt. now rewrite Hl.
  - simpl. rewrite map_size_insert. destruct (allHosts s !! NetAddress host); simpl; lia.
Qed.

(** C8.  For a candidate with a valid address that is bound to an entry
    with another public key, the guard against known hosts does not fire:
    the address is bound to a new object, not the one it had, holding an
    entry built from the candidate with FirstSeen at the current height and
    Reliability at the default, and that object is handed to the scan
    queue.  The registry keeps its size. *)
Theorem insertHost_rebinds_address s host l0 known :
  NetAddress_IsValid C (NetAddress host) = None ->
  allHosts s !! NetAddress host = Some (Some l0) ->
  mem s !! l0 = Some known ->
  types.Key (PublicKey (entry_HostDBEntry known)) ≠ types.Key (PublicKey host) ->
  let o := insertHost C host s in
  exists l,
    result o = Ok tt /\
    l ≠ l0 /\
    allHosts (final o) !! NetAddress host = Some (Some l) /\
    mem (final o) !! l = Some (newHostEntry C (blockHeight s) host) /\
    mem (final o) !! l0 = Some known /\
    FirstSeen (newHostEntry C (blockHeight s) host) = blockHeight s /\
    Reliability (newHostEntry C (blockHeight s) host) = DefaultReliability C /\
    entry_HostDBEntry (newHostEntry C (blockHeight s) host) = host /\
    events o = [EvQueueHostEntry (Some l)] /\
    rest (final o) = do_queueHostEntry C (Some l) (stored C s host) /\
    size (allHosts (final o)) = size (allHosts s).
Proof.
  intros Hv Hl0 Hm0 Hk o.
  assert (Ho : o = created C s host).
  { subst o. apply (insertHost_other_key C s host l0 known Hv Hl0 Hm0). congruence. }
  rewrite Ho. clear Ho o.
  destruct (created_facts s host)
    as (Hr & Hl & Hm & Hfresh & Hev & Hrest & _ & Hmem & _).
  assert (Hne : fresh (dom (mem s)) ≠ l0) by congruence.
  exists (fresh (dom (mem s))). repeat split; try done.
  - rewrite Hmem; [done|congruence].
  - simpl. apply map_size_insert_Some. eauto.
Qed.

End InsertHost.

(** ** removeHost, Host and ActiveHosts *)

Section Registry.

Context {Rest : Type} (C : Collaborators Rest).

Implicit Types (s : HostDB Rest) (addr : modules.NetAddress).

Lemma removeHost_outcome s addr :
  removeHost C addr s =
    match activeHosts s !! addr with
    | Some node =>
        mkOutcome (Ok None)
          (set_allHosts (delete addr)
             (set_activeHosts (delete addr)
                (set_rest (fun _ => do_removeNode C node s) s)))
          [EvRemoveNode node]
    | None => mkOutcome (Ok None) (set_allHosts (delete addr) s) []
    end.
Proof.
  unfold removeHost, bind, get; simpl.
  destruct (activeHosts s !! addr); reflexivity.
Qed.

Lemma Host_outcome s addr :
  Host addr s =
    mkOutcome
      match allHosts s !! addr with
      | Some (Some l) =>
          match mem s !! l with
          | Some e => Ok (entry_HostDBEntry e, true)
          | None => Panic "invalid memory address or nil pointer dereference"
          end
      | _ => Ok (zeroHostDBEntry, false)
      end
      s [EvLock; EvUnlock].
Proof.
  unfold Host, defer, bind, get, Lock, Unlock, emit; simpl.
  destruct (allHosts s !! addr) as [[l|]|]; simpl; try reflexivity.
  unfold deref. destruct (mem s !! l); reflexivity.
Qed.

(** C6.  [removeHost] returns the nil error whatever the database holds.
    It deletes the address from the active set, taking its node out of the
    host tree when there is one, and from the registry; afterwards the
    address is bound in neither and [Host] does not find it.  When the
    address was absent from both maps nothing changes, and a second
    removal changes nothing. *)
Theorem removeHost_always_succeeds s addr :
  let o := removeHost C addr s in
  result o = Ok None /\
  allHosts (final o) = delete addr (allHosts s) /\
  activeHosts (final o) = delete addr (activeHosts s) /\
  events o = match activeHosts s !! addr with
             | Some node => [EvRemoveNode node]
             | None => []
             end /\
  rest (final o) = match activeHosts s !! addr with
                   | Some node => do_removeNode C node s
                   | None => rest s
                   end /\
  mem (final o) = mem s /\
  allHosts (final o) !! addr = None /\
  activeHosts (final o) !! addr = None /\
  result (Host addr (final o)) = Ok (zeroHostDBEntry, false) /\
  removeHost C addr (final o) = mkOutcome (Ok None) (final o) [] /\
  (allHosts s !! addr = None -> activeHosts s !! addr = None ->
   o = mkOutcome (Ok None) s []).
Proof.
  intros o. subst o. rewrite removeHost_outcome.
  assert (Hagain : forall s',
            activeHosts s' !! addr = None -> allHosts s' !! addr = None ->
            removeHost C addr s' = mkOutcome (Ok None) s' []).
  { intros s' Ha Hl. rewrite removeHost_outcome, Ha.
    destruct s'; unfold set_allHosts; simpl in *. now rewrite (delete_id _ _ Hl). }
  destruct (activeHosts s !! addr) as [node|] eqn:Ha; simpl;
    rewrite ?Host_outcome; simpl; rewrite ?lookup_delete_eq;
    (repeat split; try done).
  - apply Hagain; simpl; apply lookup_delete_eq.
  - symmetry. now apply delete_id.
  - apply Hagain; simpl; [done|apply lookup_delete_eq].
  - intros Hl _. destruct s; unfold set_allHosts; simpl in *.
    now rewrite (delete_id _ _ Hl).
Qed.

(** C10.  [Host] answers with the zero entry and false when the address is
    not bound and also when it is bound to a nil pointer, and with the
    embedded [HostDBEntry] of the stored entry and true when it is bound to
    an entry; it is found exactly when there is such an entry, and the
    lookup never panics.  The database is left as it was. *)
Theorem Host_found_iff_entry s addr :
  (forall l, allHosts s !! addr = Some (Some l) -> is_Some (mem s !! l)) ->
  let o := Host addr s in
  final o = s /\
  events o = [EvLock; EvUnlock] /\
  match allHosts s !! addr with
  | None | Some None => result o = Ok (zeroHostDBEntry, false)
  | Some (Some l) =>
      exists e, mem s !! l = Some e /\ result o = Ok (entry_HostDBEntry e, true)
  end /\
  (forall x, result o = Ok (x, true) <->
     exists e, entryAt s addr = Some e /\ x = entry_HostDBEntry e) /\
  (forall msg, result o ≠ Panic msg).
Proof.
  intros Hwf o. subst o. rewrite Host_outcome; simpl. unfold entryAt.
  destruct (allHosts s !! addr) as [[l|]|] eqn:Hl.
  - destruct (Hwf l eq_refl) as [e He]. rewrite He.
    repeat split; try done.
    + eauto.
    + intros [= <-]. eauto.
    + intros (e' & [= <-] & ->). done.
  - repeat split; try done. intros (e & ? & _). done.
  - repeat split; try done. intros (e & ? & _). done.
Qed.

(** C9.  [ActiveHosts] reads the size of the active set between taking and
    releasing the read lock, and then is [RandomHosts] asked for that many
    hosts with nothing excluded: same list, same database afterwards. *)
Theorem ActiveHosts_is_RandomHosts_of_all s :
  let n := Z.of_nat (size (activeHosts s)) in
  let r := RandomHosts C n [] s in
  let o := ActiveHosts C s in
  result o = result r /\
  final o = final r /\
  events o = [EvRLock; EvRUnlock] ++ events r /\
  o = mkOutcome (Ok (do_RandomHosts C n [] s).1) (do_RandomHosts C n [] s).2
        [EvRLock; EvRUnlock; EvRandomHosts n []].
Proof. repeat split. Qed.

End Registry.

(** ** AverageContractPrice *)

Section Pricing.

Context {Rest : Type} (C : Collaborators Rest).

Implicit Types (s : HostDB Rest) (hosts : list HostDBEntry).

Lemma fold_left_Add hosts (start : types.Currency) :
  fold_left (fun acc host => types.Add acc (ContractPrice host)) hosts start =
  (start + totalContractPrice hosts)%N.
Proof.
  revert start. induction hosts as [|h hosts IH]; intros start; simpl.
  - lia.
  - rewrite IH. unfold types.Add. lia.
Qed.

Lemma uint64_small (x : Z) : 0 <= x < 2 ^ 64 -> uint64 x = x.
Proof. intros Hx. unfold uint64. now apply Z.mod_small. Qed.

Lemma AverageContractPrice_outcome s :
  AverageContractPrice C s =
    let hosts := (do_RandomHosts C 18 [] s).1 in
    mkOutcome
      (if len hosts =? 0 then Ok types.ZeroCurrency
       else match types.Div64 (totalContractPrice hosts) (uint64 (len hosts)) with
            | Some c => Ok c
            | None => Panic "division by zero"
            end)
      (do_RandomHosts C 18 [] s).2
      [EvRandomHosts 18 []].
Proof.
  unfold AverageContractPrice, bind, RandomHosts; simpl.
  destruct (len (do_RandomHosts C 18 [] s).1 =? 0); simpl; [reflexivity|].
  rewrite fold_left_Add. unfold types.ZeroCurrency, Currency_Div64.
  rewrite N.add_0_l.
  destruct (types.Div64 _ _); reflexivity.
Qed.

(** C5.  [AverageContractPrice] asks [RandomHosts] for 18 hosts with
    nothing excluded and so, [RandomHosts] returning no more than it is
    asked for, works on a sample of at most 18.  On an empty sample it
    returns the zero currency: the division, which would fault on the
    divisor zero, is not reached.  On a sample that is not empty it returns
    the sum of the contract prices divided by the number of hosts in the
    sample, a divisor that is not zero.  It never panics. *)
Theorem AverageContractPrice_sample_mean s :
  RandomHosts_bounded C ->
  let hosts := (do_RandomHosts C 18 [] s).1 in
  let o := AverageContractPrice C s in
  events o = [EvRandomHosts 18 []] /\
  final o = (do_RandomHosts C 18 [] s).2 /\
  len hosts <= 18 /\
  (hosts = [] ->
     result o = Ok types.ZeroCurrency /\
     types.Div64 (totalContractPrice hosts) (uint64 (len hosts)) = None) /\
  (hosts ≠ [] ->
     uint64 (len hosts) = len hosts /\
     uint64 (len hosts) ≠ 0 /\
     types.Div64 (totalContractPrice hosts) (uint64 (len hosts)) =
       Some (totalContractPrice hosts / N.of_nat (length hosts))%N /\
     result o = Ok (totalContractPrice hosts / N.of_nat (length hosts))%N) /\
  (forall msg, result o ≠ Panic msg).
Proof.
  intros Hbound hosts o. subst o. rewrite AverageContractPrice_outcome.
  fold hosts. simpl.
  assert (Hlen : len hosts <= 18) by (apply Hbound; lia).
  assert (Hdiv : hosts ≠ [] ->
            uint64 (len hosts) = len hosts /\ len hosts ≠ 0 /\
            types.Div64 (totalContractPrice hosts) (uint64 (len hosts)) =
              Some (totalContractPrice hosts / N.of_nat (length hosts))%N).
  { intros Hne.
    assert (Hpos : 0 < len hosts).
    { unfold len. destruct hosts; [done|simpl; lia]. }
    rewrite uint64_small by lia. repeat split; [lia|].
    unfold types.Div64. destruct (Z.eqb_spec (len hosts) 0) as [E|_]; [lia|].
    unfold len. now rewrite <- nat_N_Z, N2Z.id. }
  split; [reflexivity|]. split; [reflexivity|]. split; [exact Hlen|].
  split; [intros E; rewrite E; split; reflexivity|].
  split.
  - intros Hne. destruct (Hdiv Hne) as (Hu & Hnz & Hd).
    rewrite Hd. repeat split; try done.
    + congruence.
    + now destruct (Z.eqb_spec (len hosts) 0).
  - intros msg. destruct (Z.eqb_spec (len hosts) 0) as [E|Hnz]; [done|].
    assert (Hne : hosts ≠ []) by (intros E; apply Hnz; now rewrite E).
    destruct (Hdiv Hne) as (_ & _ & ->). done.
Qed.

End Pricing.

(** ** IsOffline *)

Section Liveness.

Context {Rest : Type} (C : Collaborators Rest).

Implicit Types (s : HostDB Rest) (addr : modules.NetAddress) (e : hostEntry).

Lemma IsOffline_unbound s addr :
  allHosts s !! addr = None ->
  IsOffline C addr s = mkOutcome (Ok false) s [EvRLock; EvRUnlock].
Proof.
  intros Hl. unfold IsOffline, bind, get, RLock, RUnlock, emit; simpl.
  now rewrite Hl.
Qed.

Lemma IsOffline_cached s addr l e :
  allHosts s !! addr = Some (Some l) ->
  mem s !! l = Some e ->
  elapsedAt C (ticks s) (LastScanned e) <= uptimeThreshold ->
  IsOffline C addr s =
    mkOutcome (Ok (elapsedAt C (S (ticks s)) (LastSeen e) >? uptimeThreshold))
      (set_ticks (fun n => S (S n)) s) [EvRLock; EvRUnlock].
Proof.
  intros Hl Hm Hfresh.
  unfold IsOffline, bind, get, RLock, RUnlock, emit, deref, time_Since; simpl.
  rewrite Hl; simpl. rewrite Hm; simpl.
  fold (elapsedAt C (ticks s) (LastScanned e)).
  destruct (Z.gtb_spec (elapsedAt C (ticks s) (LastScanned e)) uptimeThreshold);
    [lia|]. reflexivity.
Qed.

Lemma IsOffline_gone s addr l e :
  allHosts s !! addr = Some (Some l) ->
  mem s !! l = Some e ->
  uptimeThreshold < elapsedAt C (ticks s) (LastScanned e) ->
  allHosts (do_managedScanHost C (Some l) (set_ticks S s)) !! addr = None ->
  IsOffline C addr s =
    mkOutcome (Ok false) (do_managedScanHost C (Some l) (set_ticks S s))
      [EvRLock; EvRUnlock; EvManagedScanHost (Some l); EvRLock; EvRUnlock;
       EvPrintf (goneWarning addr)].
Proof.
  intros Hl Hm Hstale Hgone.
  unfold IsOffline, bind, get, RLock, RUnlock, emit, deref, time_Since,
    managedScanHost, Printf; simpl.
  rewrite Hl; simpl. rewrite Hm; simpl.
  fold (elapsedAt C (ticks s) (LastScanned e)).
  destruct (Z.gtb_spec (elapsedAt C (ticks s) (LastScanned e)) uptimeThreshold);
    [|lia]. simpl.
  rewrite Hgone. reflexivity.
Qed.

(** C3.  For an address bound to an entry whose LastScanned is within the
    staleness threshold of the clock, [IsOffline] takes and releases the
    read lock, scans nothing, and answers true exactly when the time since
    the entry's LastSeen, at the next reading of the clock, exceeds the
    threshold: false for an entry seen within the window, true for one not
    seen within it. *)
Theorem IsOffline_recently_scanned s addr e :
  entryAt s addr = Some e ->
  elapsedAt C (ticks s) (LastScanned e) <= uptimeThreshold ->
  let sinceSeen := elapsedAt C (S (ticks s)) (LastSeen e) in
  let o := IsOffline C addr s in
  scanned (events o) = [] /\
  events o = [EvRLock; EvRUnlock] /\
  final o = set_ticks (fun n => S (S n)) s /\
  (result o = Ok true <-> uptimeThreshold < sinceSeen) /\
  (result o = Ok false <-> sinceSeen <= uptimeThreshold) /\
  (forall msg, result o ≠ Panic msg).
Proof.
  intros He Hfresh sinceSeen o.
  destruct (entryAt_lookup s _ _ He) as (l & Hl & Hm).
  subst o. rewrite (IsOffline_cached s addr l e Hl Hm Hfresh). simpl.
  fold sinceSeen.
  destruct (Z.gtb_spec sinceSeen uptimeThreshold);
    repeat split; try done; try lia.
Qed.

(** C4.  [IsOffline] answers false, without panicking, when the address is
    not bound in the registry: at the first lookup, in which case nothing
    is scanned and the database is untouched; and when the entry was stale,
    has been scanned, and the address is no longer bound at the second
    lookup, in which case the warning is logged. *)
Theorem IsOffline_unknown_host s addr :
  (allHosts s !! addr = None \/
   exists l e, allHosts s !! addr = Some (Some l) /\ mem s !! l = Some e /\
     uptimeThreshold < elapsedAt C (ticks s) (LastScanned e) /\
     allHosts (do_managedScanHost C (Some l) (set_ticks S s)) !! addr = None) ->
  let o := IsOffline C addr s in
  result o = Ok false /\
  match allHosts s !! addr with
  | None =>
      final o = s /\ events o = [EvRLock; EvRUnlock] /\ scanned (events o) = []
  | Some h =>
      final o = do_managedScanHost C h (set_ticks S s) /\
      events o = [EvRLock; EvRUnlock; EvManagedScanHost h; EvRLock; EvRUnlock;
                  EvPrintf (goneWarning addr)] /\
      allHosts (final o) !! addr = None
  end.
Proof.
  intros [Hl|(l & e & Hl & Hm & Hstale & Hgone)] o; subst o.
  - rewrite (IsOffline_unbound s addr Hl), Hl. done.
  - rewrite (IsOffline_gone s addr l e Hl Hm Hstale Hgone), Hl. done.
Qed.

End Liveness.

(** ** The sample package at work *)

Example uptimeThreshold_is_three_days :
  uptimeThreshold = 259200000000000.
Proof. reflexivity. Qed.

Lemma Sub_in_range (t u : time.Time) :
  time.minDuration <= time.Sub t u <= time.maxDuration.
Proof.
  unfold time.Sub, time.minDuration, time.maxDuration.
  destruct (Z.ltb_spec (t - u) (- 2 ^ 63)); [lia|].
  destruct (Z.ltb_spec (2 ^ 63 - 1) (t - u)); lia.
Qed.

(** For an entry never scanned, [time.Since] saturates. *)
Example Since_zero_saturates :
  elapsedAt (Sample.package Sample.scanIdle []) 0 time.zero = time.maxDuration.
Proof. reflexivity. Qed.

Example removeHost_active_host :
  let o := removeHost (Sample.package Sample.scanIdle []) "a.example:9982" Sample.known in
  result o = Ok None /\
  events o = [EvRemoveNode (Some 7%positive)] /\
  allHosts (final o) !! "a.example:9982"%string = None /\
  activeHosts (final o) !! "a.example:9982"%string = None /\
  Sample.removedNodes (rest (final o)) = [Some 7%positive].
Proof. vm_compute. repeat split. Qed.

Example ActiveHosts_one_active :
  let P := Sample.package Sample.scanIdle [Sample.hostA; Sample.hostB] in
  ActiveHosts P Sample.known =
    mkOutcome (Ok [Sample.hostA]) Sample.known
      [EvRLock; EvRUnlock; EvRandomHosts 1 []].
Proof. vm_compute. reflexivity. Qed.

(** An address bound to a nil pointer: [Host] checks for it, [IsOffline]
    and [insertHost] read through it. *)
Example nil_entry_lookups :
  let P := Sample.package Sample.scanIdle [] in
  result (Host "n.example:9982" Sample.known) = Ok (zeroHostDBEntry, false) /\
  result (IsOffline P "n.example:9982" Sample.known) =
    Panic "invalid memory address or nil pointer dereference" /\
  result (insertHost P (mkHostDBEntry "n.example:9982" 1%N [] Sample.key1) Sample.known) =
    Panic "invalid memory address or nil pointer dereference".
Proof. vm_compute. repeat split. Qed.

(** Host B, never scanned, is scanned by [IsOffline]; the scan leaves it
    unseen, so it is offline. *)
Example IsOffline_scans_stale_entry :
  let o := IsOffline (Sample.package Sample.scanIdle []) "b.example:9982" Sample.known in
  result o = Ok true /\
  events o = [EvRLock; EvRUnlock; EvManagedScanHost (Some 2%positive);
              EvRLock; EvRUnlock].
Proof. vm_compute. repeat split. Qed.

(** ** The theorems at the sample package *)

Lemma pick_bounded scan pool : RandomHosts_bounded (Sample.package scan pool).
Proof.
  intros n exclude s Hn. unfold len; simpl.
  rewrite length_take. lia.
Qed.

(** Host A is known to the sample database under the key it is offered
    with: inserting it again changes nothing. *)
Lemma insertHost_known_is_noop_witness :
  let P := Sample.package Sample.scanIdle [] in
  entryAt Sample.known (NetAddress Sample.hostA) = Some Sample.entryA /\
  types.Key (PublicKey (entry_HostDBEntry Sample.entryA)) =
    types.Key (PublicKey Sample.hostA) /\
  final (insertHost P Sample.hostA Sample.known) = Sample.known /\
  queued (events (insertHost P Sample.hostA Sample.known)) = [].
Proof.
  intros P.
  assert (H1 : entryAt Sample.known (NetAddress Sample.hostA) = Some Sample.entryA)
    by (vm_compute; reflexivity).
  assert (H2 : types.Key (PublicKey (entry_HostDBEntry Sample.entryA)) =
               types.Key (PublicKey Sample.hostA)) by reflexivity.
  pose proof (insertHost_known_is_noop P Sample.known Sample.hostA Sample.entryA H1 H2)
    as H.
  cbv zeta in H. destruct H as (_ & Hf & Hq & _).
  exact (conj H1 (conj H2 (conj Hf Hq))).
Defined.

(** The host with the empty address is turned away. *)
Lemma insertHost_invalid_address_discarded_witness :
  let P := Sample.package Sample.scanIdle [] in
  NetAddress_IsValid P (NetAddress Sample.hostBad) = Some "missing port in address"%string /\
  result (insertHost P Sample.hostBad Sample.known) = Ok tt /\
  final (insertHost P Sample.hostBad Sample.known) = Sample.known /\
  events (insertHost P Sample.hostBad Sample.known) =
    [EvDebugf "WARN: host '' has an invalid NetAddress: missing port in address"].
Proof.
  intros P.
  assert (H1 : NetAddress_IsValid P (NetAddress Sample.hostBad) =
               Some "missing port in address"%string) by reflexivity.
  pose proof (insertHost_invalid_address_discarded P Sample.known Sample.hostBad _ H1)
    as H.
  cbv zeta in H. destruct H as (Hr & Hf & _ & _ & _ & _ & He).
  exact (conj H1 (conj Hr (conj Hf He))).
Defined.

(** Host A is new to the empty database. *)
Lemma insertHost_creates_entry_witness :
  let P := Sample.package Sample.scanIdle [] in
  let o := insertHost P Sample.hostA Sample.empty in
  NetAddress_IsValid P (NetAddress Sample.hostA) = None /\
  allHosts Sample.empty !! NetAddress Sample.hostA = None /\
  exists l e,
    entryAt (final o) (NetAddress Sample.hostA) = Some e /\
    FirstSeen e = 100%N /\ Reliability e = 20%N /\
    entry_HostDBEntry e = Sample.hostA /\
    events o = [EvQueueHostEntry (Some l)] /\
    Sample.scanQueue (rest (final o)) = [Some l].
Proof.
  intros P o.
  assert (H1 : NetAddress_IsValid P (NetAddress Sample.hostA) = None) by reflexivity.
  assert (H2 : allHosts Sample.empty !! NetAddress Sample.hostA = None) by reflexivity.
  destruct (insertHost_creates_entry P Sample.empty Sample.hostA H1 (or_introl H2))
    as (l & e & _ & _ & _ & He & _ & Hfs & Hrel & Hh & Hev & Hrest & _).
  refine (conj H1 (conj H2 _)).
  exists l, e.
  refine (conj He (conj Hfs (conj Hrel (conj Hh (conj Hev _))))).
  fold o in Hrest. now rewrite Hrest.
Defined.

(** The address of host A offered with another key. *)
Lemma insertHost_rebinds_address_witness :
  let P := Sample.package Sample.scanIdle [] in
  let o := insertHost P Sample.hostA' Sample.known in
  NetAddress_IsValid P (NetAddress Sample.hostA') = None /\
  allHosts Sample.known !! NetAddress Sample.hostA' = Some (Some 1%positive) /\
  mem Sample.known !! 1%positive = Some Sample.entryA /\
  types.Key (PublicKey (entry_HostDBEntry Sample.entryA)) ≠
    types.Key (PublicKey Sample.hostA') /\
  exists l,
    l ≠ 1%positive /\
    allHosts (final o) !! NetAddress Sample.hostA' = Some (Some l) /\
    mem (final o) !! l = Some (mkHostEntry Sample.hostA' 100%N 0%N 20%N 0 0) /\
    events o = [EvQueueHostEntry (Some l)].
Proof.
  intros P o.
  assert (H1 : NetAddress_IsValid P (NetAddress Sample.hostA') = None) by reflexivity.
  assert (H2 : allHosts Sample.known !! NetAddress Sample.hostA' = Some (Some 1%positive))
    by (vm_compute; reflexivity).
  assert (H3 : mem Sample.known !! 1%positive = Some Sample.entryA)
    by (vm_compute; reflexivity).
  assert (H4 : types.Key (PublicKey (entry_HostDBEntry Sample.entryA)) ≠
               types.Key (PublicKey Sample.hostA')) by discriminate.
  destruct (insertHost_rebinds_address P Sample.known Sample.hostA' _ _ H1 H2 H3 H4)
    as (l & _ & Hne & Hl & Hm & _ & _ & _ & _ & Hev & _).
  refine (conj H1 (conj H2 (conj H3 (conj H4 _)))).
  exists l.
  exact (conj Hne (conj Hl (conj Hm Hev))).
Defined.

(** The sample database holds a nil pointer for one address and an entry
    for another. *)
Lemma Host_found_iff_entry_witness :
  (forall l, allHosts Sample.known !! "n.example:9982"%string = Some (Some l) ->
     is_Some (mem Sample.known !! l)) /\
  result (Host "n.example:9982"%string Sample.known) = Ok (zeroHostDBEntry, false) /\
  (forall l, allHosts Sample.known !! "a.example:9982"%string = Some (Some l) ->
     is_Some (mem Sample.known !! l)) /\
  result (Host "a.example:9982"%string Sample.known) = Ok (Sample.hostA, true).
Proof.
  assert (H1 : forall l,
            allHosts Sample.known !! "n.example:9982"%string = Some (Some l) ->
            is_Some (mem Sample.known !! l)).
  { intros l H. vm_compute in H. discriminate. }
  assert (H2 : forall l,
            allHosts Sample.known !! "a.example:9982"%string = Some (Some l) ->
            is_Some (mem Sample.known !! l)).
  { intros l H. vm_compute in H. injection H as <-. vm_compute. eauto. }
  destruct (Host_found_iff_entry Sample.known "n.example:9982"%string H1)
    as (_ & _ & Hn & _).
  destruct (Host_found_iff_entry Sample.known "a.example:9982"%string H2)
    as (_ & _ & _ & Ha & _).
  refine (conj H1 (conj Hn (conj H2 _))).
  apply Ha. exists Sample.entryA. split; [vm_compute; reflexivity|reflexivity].
Defined.

(** A sample of two hosts, priced 30 and 11, and the empty sample. *)
Lemma AverageContractPrice_sample_mean_witness :
  RandomHosts_bounded (Sample.package Sample.scanIdle [Sample.hostA; Sample.hostB]) /\
  result (AverageContractPrice
            (Sample.package Sample.scanIdle [Sample.hostA; Sample.hostB])
            Sample.known) = Ok 20%N /\
  RandomHosts_bounded (Sample.package Sample.scanIdle []) /\
  result (AverageContractPrice (Sample.package Sample.scanIdle []) Sample.known) =
    Ok 0%N.
Proof.
  pose proof (AverageContractPrice_sample_mean
                (Sample.package Sample.scanIdle [Sample.hostA; Sample.hostB])
                Sample.known (pick_bounded _ _)) as H2.
  pose proof (AverageContractPrice_sample_mean
                (Sample.package Sample.scanIdle []) Sample.known (pick_bounded _ _)) as H0.
  cbv zeta in H2, H0.
  destruct H2 as (_ & _ & _ & _ & H2 & _).
  destruct H0 as (_ & _ & _ & H0 & _).
  destruct H2 as (_ & _ & _ & H2); [discriminate|].
  destruct H0 as (H0 & _); [reflexivity|].
  exact (conj (pick_bounded _ _) (conj H2 (conj (pick_bounded _ _) H0))).
Defined.

(** Host A was scanned ten hours and seen a hundred hours before the clock
    is first read: no scan, and it is offline. *)
Lemma IsOffline_recently_scanned_witness :
  let P := Sample.package Sample.scanIdle [] in
  entryAt Sample.known "a.example:9982"%string = Some Sample.entryA /\
  elapsedAt P (ticks Sample.known) (LastScanned Sample.entryA) <= uptimeThreshold /\
  result (IsOffline P "a.example:9982"%string Sample.known) = Ok true /\
  events (IsOffline P "a.example:9982"%string Sample.known) = [EvRLock; EvRUnlock].
Proof.
  intros P.
  assert (H1 : entryAt Sample.known "a.example:9982"%string = Some Sample.entryA)
    by (vm_compute; reflexivity).
  assert (H2 : elapsedAt P (ticks Sample.known) (LastScanned Sample.entryA)
               <= uptimeThreshold) by (vm_compute; discriminate).
  pose proof (IsOffline_recently_scanned P Sample.known _ _ H1 H2) as H.
  cbv zeta in H. destruct H as (_ & Hev & _ & Htrue & _).
  refine (conj H1 (conj H2 (conj _ Hev))).
  apply Htrue. vm_compute. reflexivity.
Defined.

(** An address the sample database has never seen, and host B, never
    scanned, which is removed while it is being scanned. *)
Lemma IsOffline_unknown_host_witness :
  let P := Sample.package (Sample.scanGone "b.example:9982") [] in
  allHosts Sample.known !! "c.example:9982"%string = None /\
  result (IsOffline P "c.example:9982"%string Sample.known) = Ok false /\
  final (IsOffline P "c.example:9982"%string Sample.known) = Sample.known /\
  (exists l e,
     allHosts Sample.known !! "b.example:9982"%string = Some (Some l) /\
     mem Sample.known !! l = Some e /\
     uptimeThreshold < elapsedAt P (ticks Sample.known) (LastScanned e) /\
     allHosts (do_managedScanHost P (Some l) (set_ticks S Sample.known))
       !! "b.example:9982"%string = None) /\
  result (IsOffline P "b.example:9982"%string Sample.known) = Ok false.
Proof.
  intros P.
  assert (H1 : allHosts Sample.known !! "c.example:9982"%string = None)
    by (vm_compute; reflexivity).
  pose proof (IsOffline_unknown_host P Sample.known _ (or_introl H1)) as Hc.
  cbv zeta in Hc. rewrite H1 in Hc. destruct Hc as (Hr & Hf & _).
  assert (H2 : exists l e,
            allHosts Sample.known !! "b.example:9982"%string = Some (Some l) /\
            mem Sample.known !! l = Some e /\
            uptimeThreshold < elapsedAt P (ticks Sample.known) (LastScanned e) /\
            allHosts (do_managedScanHost P (Some l) (set_ticks S Sample.known))
              !! "b.example:9982"%string = None).
  { exists 2%positive, Sample.entryB.
    split; [vm_compute; reflexivity|].
    split; [vm_compute; reflexivity|].
    split; vm_compute; reflexivity. }
  pose proof (IsOffline_unknown_host P Sample.known _ (or_intror H2)) as Hb.
  cbv zeta in Hb. destruct Hb as (Hrb & _).
  exact (conj H1 (conj Hr (conj Hf (conj H2 Hrb)))).
Defined.

(** * Further properties of hostentry.go *)

(** ** insertHost on any database *)

Section InsertHostAnywhere.

Context {Rest : Type} (C : Collaborators Rest).

Implicit Types (s : HostDB Rest) (host : HostDBEntry) (addr : modules.NetAddress).

Lemma entryAt_entryOf s addr :
  entryAt s addr = allHosts s !! addr ≫= entryOf s.
Proof. unfold entryAt. destruct (allHosts s !! addr) as [[l|]|]; reflexivity. Qed.

(** The five ways [insertHost] can go. *)
Lemma insertHost_outcome s host :
  insertHost C host s =
    match NetAddress_IsValid C (NetAddress host) with
    | Some err =>
        mkOutcome (Ok tt) s
          [EvDebugf ("WARN: host '" +:+ NetAddress host +:+
                     "' has an invalid NetAddress: " +:+ err)]
    | None =>
        match allHosts s !! NetAddress host with
        | None => created C s host
        | Some p =>
            match entryOf s p with
            | None =>
                mkOutcome (Panic "invalid memory address or nil pointer dereference")
                  s []
            | Some known =>
                if bytes.Equal (types.Key (PublicKey host))
                     (types.Key (PublicKey (entry_HostDBEntry known)))
                then mkOutcome (Ok tt) s []
                else created C s host
            end
        end
    end.
Proof.
  unfold insertHost. destruct (NetAddress_IsValid C (NetAddress host)); [reflexivity|].
  unfold bind, get; simpl.
  destruct (allHosts s !! NetAddress host) as [[l|]|]; simpl; try reflexivity.
  unfold deref. destruct (mem s !! l) as [known|]; simpl; [|reflexivity].
  now destruct (bytes.Equal _ _).
Qed.

(** Splits a goal about [insertHost] into its five ways. *)
Ltac insertHost_cases s host :=
  rewrite (insertHost_outcome s host);
  let Hv := fresh "Hv" in
  let Hl := fresh "Hl" in
  let Hp := fresh "Hp" in
  let Hk := fresh "Hk" in
  destruct (NetAddress_IsValid C (NetAddress host)) as [?err|] eqn:Hv;
    [|destruct (allHosts s !! NetAddress host) as [?p|] eqn:Hl;
      [destruct (entryOf s p) as [?known|] eqn:Hp;
        [destruct (bytes.Equal (types.Key (PublicKey host))
                     (types.Key (PublicKey (entry_HostDBEntry known)))) eqn:Hk|]|]].

Lemma stored_keeps_objects s host l e :
  mem s !! l = Some e -> mem (stored C s host) !! l = Some e.
Proof.
  intros Hm. unfold stored; simpl. rewrite lookup_insert_ne; [done|].
  intros <-. now rewrite fresh_unused in Hm.
Qed.

Lemma stored_keeps_entryOf s host p e :
  entryOf s p = Some e -> entryOf (stored C s host) p = Some e.
Proof. destruct p as [l|]; [apply stored_keeps_objects|done]. Qed.

Lemma entryOf_set_rest s (f : Rest -> Rest) p :
  entryOf (set_rest f s) p = entryOf s p.
Proof. now destruct p. Qed.

(** X1.  Whatever the database and the candidate, [insertHost] leaves the
    active set, the block height and the clock alone, never changes or
    frees an object that was in memory, and keeps what the registry holds
    for every other address. *)
Theorem insertHost_touches_one_address s host :
  let o := insertHost C host s in
  activeHosts (final o) = activeHosts s /\
  blockHeight (final o) = blockHeight s /\
  ticks (final o) = ticks s /\
  (forall l e, mem s !! l = Some e -> mem (final o) !! l = Some e) /\
  (forall addr, addr ≠ NetAddress host ->
     allHosts (final o) !! addr = allHosts s !! addr) /\
  (forall addr e, addr ≠ NetAddress host ->
     entryAt s addr = Some e -> entryAt (final o) addr = Some e).
Proof.
  intros o. subst o.
  assert (Hcreated :
    let o := created C s host in
    activeHosts (final o) = activeHosts s /\
    blockHeight (final o) = blockHeight s /\
    ticks (final o) = ticks s /\
    (forall l e, mem s !! l = Some e -> mem (final o) !! l = Some e) /\
    (forall addr, addr ≠ NetAddress host ->
       allHosts (final o) !! addr = allHosts s !! addr) /\
    (forall addr e, addr ≠ NetAddress host ->
       entryAt s addr = Some e -> entryAt (final o) addr = Some e)).
  { simpl. split; [done|]. split; [done|]. split; [done|].
    split; [apply stored_keeps_objects|].
    split; [intros addr Hne; now apply lookup_insert_ne|].
    intros addr e Hne. rewrite !entryAt_entryOf; simpl.
    rewrite lookup_insert_ne by done.
    destruct (allHosts s !! addr) as [p|]; simpl; [|done].
    apply stored_keeps_entryOf. }
  insertHost_cases s host; try exact Hcreated; simpl; repeat split; done.
Qed.

(** X2.  Whatever the database and the candidate, [insertHost] removes no
    address from the registry, makes it at most one larger, and calls
    [queueHostEntry] at most once. *)
Theorem insertHost_adds_at_most_one s host :
  let o := insertHost C host s in
  dom (allHosts s) ⊆ dom (allHosts (final o)) /\
  (size (allHosts s) <= size (allHosts (final o)) <= S (size (allHosts s)))%nat /\
  (length (queued (events o)) <= 1)%nat.
Proof.
  intros o. subst o.
  assert (Hcreated :
    let o := created C s host in
    dom (allHosts s) ⊆ dom (allHosts (final o)) /\
    (size (allHosts s) <= size (allHosts (final o)) <= S (size (allHosts s)))%nat /\
    (length (queued (events o)) <= 1)%nat).
  { simpl. split; [apply dom_insert_subseteq|]. split; [|done].
    rewrite map_size_insert. destruct (allHosts s !! NetAddress host); simpl; lia. }
  insertHost_cases s host; try exact Hcreated; simpl; repeat split; (done || lia).
Qed.

(** X3.  [insertHost] panics exactly when the address is valid and bound
    to a pointer with no entry behind it, such as nil; it then has changed
    nothing and called nothing. *)
Theorem insertHost_panics_on_nil_entry s host :
  let o := insertHost C host s in
  ((exists msg, result o = Panic msg) <->
   NetAddress_IsValid C (NetAddress host) = None /\
   exists p, allHosts s !! NetAddress host = Some p /\ entryOf s p = None) /\
  ((exists msg, result o = Panic msg) -> final o = s /\ events o = []).
Proof.
  intros o. subst o.
  insertHost_cases s host; simpl; (split; [split|]);
    try (intros [msg Hmsg]; discriminate);
    try (intros (Hvalid & q & Hq & He); congruence).
  - intros _. split; [done|]. exists p. done.
  - intros _. eexists. reflexivity.
  - done.
Qed.

(** X4.  In a registry without nil pointers [insertHost] returns normally
    and leaves a registry without nil pointers. *)
Theorem insertHost_keeps_registry_ok s host :
  registry_ok s ->
  let o := insertHost C host s in
  result o = Ok tt /\ registry_ok (final o).
Proof.
  intros Hok o. subst o.
  assert (Hcreated : result (created C s host) = Ok tt /\
                     registry_ok (final (created C s host))).
  { split; [done|]. unfold registry_ok; simpl.
    apply map_Forall_insert_2.
    - simpl. rewrite lookup_insert_eq. eauto.
    - intros addr p Hl. destruct (Hok addr p Hl) as [e He].
      exists e. now apply (stored_keeps_entryOf s host p e). }
  insertHost_cases s host; try exact Hcreated; try done.
  destruct (Hok _ _ Hl) as [e He]. congruence.
Qed.

(** X5.  In a registry without nil pointers where every entry is bound
    under its own address, [insertHost] keeps every entry bound under its
    own address. *)
Theorem insertHost_keeps_keyed s host :
  registry_ok s -> keyed s ->
  keyed (final (insertHost C host s)).
Proof.
  intros Hok Hkeyed.
  assert (Hcreated : keyed (final (created C s host))).
  { unfold keyed; simpl. apply map_Forall_insert_2.
    - simpl. now rewrite lookup_insert_eq.
    - intros addr p Hl. destruct (Hok addr p Hl) as [e He].
      pose proof (stored_keeps_entryOf s host p e He) as He'.
      specialize (Hkeyed addr p Hl). cbv beta in Hkeyed |- *.
      rewrite He in Hkeyed. now rewrite entryOf_set_rest, He'. }
  insertHost_cases s host; try exact Hcreated; done.
Qed.

(** X6.  From any database, a second [insertHost] of the same candidate
    right after the first gives the same result and the same database, and
    hands the scan queue nothing the first did not. *)
Theorem insertHost_idempotent s host :
  let once := insertHost C host s in
  let twice := bind (insertHost C host) (fun _ => insertHost C host) s in
  result twice = result once /\
  final twice = final once /\
  queued (events twice) = queued (events once) /\
  allHosts (final twice) = allHosts (final once).
Proof.
  intros once twice.
  destruct (insertHost_twice C s host) as (Hr & Hf & Hq).
  fold once twice in Hr, Hf, Hq. now rewrite Hr, Hf, Hq.
Qed.

End InsertHostAnywhere.

(** ** Invariants and round trips of the registry *)

Section RegistryLaws.

Context {Rest : Type} (C : Collaborators Rest).

Implicit Types (s : HostDB Rest) (host : HostDBEntry) (addr : modules.NetAddress).

Lemma removeHost_maps s addr :
  let o := removeHost C addr s in
  result o = Ok None /\
  allHosts (final o) = delete addr (allHosts s) /\
  activeHosts (final o) = delete addr (activeHosts s) /\
  mem (final o) = mem s /\
  blockHeight (final o) = blockHeight s.
Proof.
  intros o. subst o. rewrite removeHost_outcome.
  destruct (activeHosts s !! addr) eqn:Ha; simpl; repeat split.
  symmetry. now apply delete_id.
Qed.

Lemma entryOf_same_mem s s' p : mem s' = mem s -> entryOf s' p = entryOf s p.
Proof. intros Hm. destruct p; simpl; [now rewrite Hm|done]. Qed.

Lemma insertHost_maps s host :
  let o := insertHost C host s in
  activeHosts (final o) = activeHosts s /\
  dom (allHosts s) ⊆ dom (allHosts (final o)).
Proof.
  intros o. subst o. rewrite (insertHost_outcome C s host).
  destruct (NetAddress_IsValid C (NetAddress host)); [done|].
  assert (Hcreated : activeHosts (final (created C s host)) = activeHosts s /\
                     dom (allHosts s) ⊆ dom (allHosts (final (created C s host)))).
  { split; [done|]. simpl. apply dom_insert_subseteq. }
  destruct (allHosts s !! NetAddress host) as [p|]; [|exact Hcreated].
  destruct (entryOf s p); [|done].
  now destruct (bytes.Equal _ _).
Qed.

(** X7.  When the active set is part of the registry, it still is after
    [insertHost] and after [removeHost]. *)
Theorem active_known_kept s host addr :
  active_known s ->
  active_known (final (insertHost C host s)) /\
  active_known (final (removeHost C addr s)).
Proof.
  unfold active_known. intros Hs. split.
  - destruct (insertHost_maps s host) as (Hact & Hdom). rewrite Hact.
    intros a Ha. apply Hdom, Hs, Ha.
  - destruct (removeHost_maps s addr) as (_ & -> & -> & _).
    rewrite !dom_delete_L. intros a [Ha Hne]%elem_of_difference.
    apply elem_of_difference. split; [apply Hs, Ha|exact Hne].
Qed.

Lemma removeHost_registry_ok s addr :
  registry_ok s -> registry_ok (final (removeHost C addr s)).
Proof.
  intros Hok.
  destruct (removeHost_maps s addr) as (_ & Hall & _ & Hmem & _).
  unfold registry_ok. rewrite Hall.
  apply map_Forall_delete. intros a p Hl. cbv beta.
  rewrite (entryOf_same_mem s _ p Hmem). exact (Hok a p Hl).
Qed.

Lemma removeHost_keyed s addr :
  keyed s -> keyed (final (removeHost C addr s)).
Proof.
  intros Hkeyed.
  destruct (removeHost_maps s addr) as (_ & Hall & _ & Hmem & _).
  unfold keyed. rewrite Hall.
  apply map_Forall_delete. intros a p Hl. cbv beta.
  rewrite (entryOf_same_mem s _ p Hmem). exact (Hkeyed a p Hl).
Qed.

(** X8.  [removeHost] keeps a registry free of nil pointers and keeps the
    entries bound under their own addresses; the entry it unbinds stays in
    memory as it was. *)
Theorem removeHost_keeps_registry_sound s addr :
  registry_ok s -> keyed s ->
  let s' := final (removeHost C addr s) in
  registry_ok s' /\ keyed s' /\
  (forall p, allHosts s !! addr = Some p -> entryOf s' p = entryOf s p).
Proof.
  intros Hok Hkeyed s'.
  split; [now apply removeHost_registry_ok|].
  split; [now apply removeHost_keyed|].
  intros p _. apply entryOf_same_mem.
  now destruct (removeHost_maps s addr) as (_ & _ & _ & Hmem & _).
Qed.

(** X9.  [removeHost] changes what the registry holds for no other
    address, and makes the registry one smaller when the address was
    bound and no smaller otherwise. *)
Theorem removeHost_forgets_one_address s addr :
  let o := removeHost C addr s in
  (forall addr', addr' ≠ addr -> entryAt (final o) addr' = entryAt s addr') /\
  (forall addr', addr' ≠ addr ->
     activeHosts (final o) !! addr' = activeHosts s !! addr') /\
  size (allHosts (final o)) =
    match allHosts s !! addr with
    | Some _ => pred (size (allHosts s))
    | None => size (allHosts s)
    end.
Proof.
  intros o. subst o.
  destruct (removeHost_maps s addr) as (_ & Hall & Hact & Hmem & _).
  split; [|split].
  - intros addr' Hne. rewrite !(entryAt_entryOf). rewrite Hall.
    rewrite lookup_delete_ne by done.
    destruct (allHosts s !! addr') as [p|]; simpl; [|done].
    now apply entryOf_same_mem.
  - intros addr' Hne. rewrite Hact. now apply lookup_delete_ne.
  - rewrite Hall, map_size_delete. now destruct (allHosts s !! addr).
Qed.

(** X10.  After [insertHost] of a candidate with a valid address into a
    registry without nil pointers, [Host] finds an entry under that
    address, with the public key of the candidate; it is the candidate
    itself when the address was new. *)
Theorem insertHost_then_Host s host :
  registry_ok s ->
  NetAddress_IsValid C (NetAddress host) = None ->
  let s' := final (insertHost C host s) in
  exists x,
    result (Host (NetAddress host) s') = Ok (x, true) /\
    types.Key (PublicKey x) = types.Key (PublicKey host) /\
    (allHosts s !! NetAddress host = None -> x = host).
Proof.
  intros Hok Hv s'. subst s'. rewrite (insertHost_outcome C s host), Hv.
  assert (Hcreated : exists x,
            result (Host (NetAddress host) (final (created C s host))) = Ok (x, true) /\
            types.Key (PublicKey x) = types.Key (PublicKey host) /\ x = host).
  { exists host. rewrite Host_outcome; simpl.
    rewrite lookup_insert_eq, lookup_insert_eq. done. }
  destruct (allHosts s !! NetAddress host) as [p|] eqn:Hl.
  - destruct (Hok _ _ Hl) as [known Hp]. rewrite Hp.
    destruct (bytes.Equal _ _) eqn:Hk.
    + exists (entry_HostDBEntry known). rewrite Host_outcome; simpl. rewrite Hl.
      destruct p as [l|]; [|done]. simpl in Hp. rewrite Hp.
      apply bytes_Equal_eq in Hk. done.
    + destruct Hcreated as (x & Hx & Hkey & _). exists x. done.
  - destruct Hcreated as (x & Hx & Hkey & Heq). exists x. done.
Qed.

(** X11.  Whatever [insertHost] did, [removeHost] of the candidate's
    address right after it leaves the registry and the active set as a
    [removeHost] alone would, and [Host] no longer finds the address. *)
Theorem insertHost_then_removeHost s host :
  let s1 := final (insertHost C host s) in
  let o := removeHost C (NetAddress host) s1 in
  result o = Ok None /\
  allHosts (final o) = delete (NetAddress host) (allHosts s) /\
  activeHosts (final o) = delete (NetAddress host) (activeHosts s) /\
  allHosts (final o) = allHosts (final (removeHost C (NetAddress host) s)) /\
  result (Host (NetAddress host) (final o)) = Ok (zeroHostDBEntry, false).
Proof.
  intros s1 o. subst o.
  destruct (removeHost_maps s1 (NetAddress host)) as (Hr & Hall & Hact & _).
  destruct (removeHost_maps s (NetAddress host)) as (_ & Hall0 & _).
  assert (Hdel : delete (NetAddress host) (allHosts s1) =
                 delete (NetAddress host) (allHosts s)).
  { subst s1. rewrite (insertHost_outcome C s host).
    assert (Hcreated : delete (NetAddress host) (allHosts (final (created C s host))) =
                       delete (NetAddress host) (allHosts s))
      by (simpl; apply delete_insert_eq).
    destruct (NetAddress_IsValid C (NetAddress host)); [done|].
    destruct (allHosts s !! NetAddress host) as [p|]; [|exact Hcreated].
    destruct (entryOf s p); [|done].
    now destruct (bytes.Equal _ _). }
  split; [exact Hr|]. split; [now rewrite Hall|].
  split; [rewrite Hact; subst s1; now destruct (insertHost_maps s host) as (-> & _)|].
  split; [now rewrite Hall, Hall0|].
  rewrite Host_outcome; simpl. now rewrite Hall, lookup_delete_eq.
Qed.


End RegistryLaws.

(** ** IsOffline on any database *)

Section LivenessAnywhere.

Context {Rest : Type} (C : Collaborators Rest).

Implicit Types (s : HostDB Rest) (addr : modules.NetAddress) (e : hostEntry).

(** The ways [IsOffline] can go. *)
Lemma IsOffline_outcome s addr :
  IsOffline C addr s =
    match allHosts s !! addr with
    | None => mkOutcome (Ok false) s [EvRLock; EvRUnlock]
    | Some p =>
        match entryOf s p with
        | None =>
            mkOutcome (Panic "invalid memory address or nil pointer dereference")
              s [EvRLock]
        | Some e =>
            if elapsedAt C (ticks s) (LastScanned e) >? uptimeThreshold then
              let s1 := afterScan C s p in
              match allHosts s1 !! addr with
              | None =>
                  mkOutcome (Ok false) s1
                    [EvRLock; EvRUnlock; EvManagedScanHost p; EvRLock; EvRUnlock;
                     EvPrintf (goneWarning addr)]
              | Some p' =>
                  match entryOf s1 p' with
                  | None =>
                      mkOutcome
                        (Panic "invalid memory address or nil pointer dereference")
                        s1 [EvRLock; EvRUnlock; EvManagedScanHost p; EvRLock]
                  | Some e' =>
                      mkOutcome
                        (Ok (elapsedAt C (ticks s1) (LastSeen e') >? uptimeThreshold))
                        (set_ticks S s1)
                        [EvRLock; EvRUnlock; EvManagedScanHost p; EvRLock; EvRUnlock]
                  end
              end
            else
              mkOutcome
                (Ok (elapsedAt C (S (ticks s)) (LastSeen e) >? uptimeThreshold))
                (set_ticks (fun n => S (S n)) s) [EvRLock; EvRUnlock]
        end
    end.
Proof.
  unfold IsOffline, bind, get, RLock, RUnlock, emit, deref, time_Since,
    managedScanHost, Printf, afterScan; simpl.
  destruct (allHosts s !! addr) as [[l|]|]; simpl; try reflexivity.
  destruct (mem s !! l) as [e|]; simpl; [|reflexivity].
  fold (elapsedAt C (ticks s) (LastScanned e)).
  destruct (elapsedAt C (ticks s) (LastScanned e) >? uptimeThreshold); simpl;
    [|reflexivity].
  destruct (allHosts (do_managedScanHost C (Some l) (set_ticks S s)) !! addr)
    as [[l'|]|]; simpl; try reflexivity.
  destruct (mem (do_managedScanHost C (Some l) (set_ticks S s)) !! l') as [e'|];
    reflexivity.
Qed.

(** X13.  For a stale entry that is still in the registry after the scan,
    [IsOffline] scans once, with the pointer it found first, and answers
    from the LastSeen it reads after the scan, not from the stale one:
    true exactly when that LastSeen is further back than the threshold. *)
Theorem IsOffline_reads_LastSeen_after_scan s addr p e e' :
  allHosts s !! addr = Some p ->
  entryOf s p = Some e ->
  uptimeThreshold < elapsedAt C (ticks s) (LastScanned e) ->
  entryAt (afterScan C s p) addr = Some e' ->
  let s1 := afterScan C s p in
  let o := IsOffline C addr s in
  scanned (events o) = [p] /\
  events o = [EvRLock; EvRUnlock; EvManagedScanHost p; EvRLock; EvRUnlock] /\
  final o = set_ticks S s1 /\
  (result o = Ok true <-> uptimeThreshold < elapsedAt C (ticks s1) (LastSeen e')) /\
  (result o = Ok false <-> elapsedAt C (ticks s1) (LastSeen e') <= uptimeThreshold).
Proof.
  intros Hl He Hstale He' s1 o. subst o. rewrite IsOffline_outcome, Hl, He.
  destruct (Z.gtb_spec (elapsedAt C (ticks s) (LastScanned e)) uptimeThreshold);
    [|lia].
  cbv zeta. fold s1 in He' |- *. rewrite entryAt_entryOf in He'.
  destruct (allHosts s1 !! addr) as [p'|]; [|done]. simpl in He'. rewrite He'.
  simpl.
  destruct (Z.gtb_spec (elapsedAt C (ticks s1) (LastSeen e')) uptimeThreshold);
    repeat split; try done; try lia.
Qed.

(** X14.  [IsOffline] calls [managedScanHost] at most once.  For an address
    bound to an entry it calls it exactly when the entry's LastScanned is
    further back than the threshold, and then with the pointer that was in
    the registry when it looked first; for an address that is not bound it
    does not scan. *)
Theorem IsOffline_scans_iff_stale s addr :
  let o := IsOffline C addr s in
  (length (scanned (events o)) <= 1)%nat /\
  (allHosts s !! addr = None -> scanned (events o) = []) /\
  (forall p e, allHosts s !! addr = Some p -> entryOf s p = Some e ->
     scanned (events o) =
       if elapsedAt C (ticks s) (LastScanned e) >? uptimeThreshold then [p] else []).
Proof.
  intros o. subst o. rewrite IsOffline_outcome.
  destruct (allHosts s !! addr) as [p|] eqn:Hl.
  - destruct (entryOf s p) as [e|] eqn:He.
    + assert (Hscan : scanned (events
                (if elapsedAt C (ticks s) (LastScanned e) >? uptimeThreshold then
                   let s1 := afterScan C s p in
                   match allHosts s1 !! addr with
                   | None =>
                       mkOutcome (Ok false) s1
                         [EvRLock; EvRUnlock; EvManagedScanHost p; EvRLock; EvRUnlock;
                          EvPrintf (goneWarning addr)]
                   | Some p' =>
                       match entryOf s1 p' with
                       | None =>
                           mkOutcome
                             (Panic "invalid memory address or nil pointer dereference")
                             s1 [EvRLock; EvRUnlock; EvManagedScanHost p; EvRLock]
                       | Some e' =>
                           mkOutcome
                             (Ok (elapsedAt C (ticks s1) (LastSeen e') >? uptimeThreshold))
                             (set_ticks S s1)
                             [EvRLock; EvRUnlock; EvManagedScanHost p; EvRLock; EvRUnlock]
                       end
                   end
                 else
                   mkOutcome
                     (Ok (elapsedAt C (S (ticks s)) (LastSeen e) >? uptimeThreshold))
                     (set_ticks (fun n => S (S n)) s) [EvRLock; EvRUnlock])) =
              if elapsedAt C (ticks s) (LastScanned e) >? uptimeThreshold
              then [p] else []).
      { destruct (elapsedAt C (ticks s) (LastScanned e) >? uptimeThreshold);
          [|reflexivity].
        cbv zeta. destruct (allHosts (afterScan C s p) !! addr) as [p'|]; [|reflexivity].
        destruct (entryOf (afterScan C s p) p'); reflexivity. }
      rewrite Hscan. split; [|split; [done|]].
      * destruct (_ >? _); simpl; lia.
      * intros p0 e0 [= <-] He0. rewrite He in He0. injection He0 as <-.
        reflexivity.
    + simpl. split; [lia|]. split; [done|]. intros p0 e0 [= <-]. congruence.
  - simpl. split; [lia|]. split; [done|]. intros p0 e0. done.
Qed.

(** X15.  [IsOffline] panics exactly when one of its two lookups finds the
    address bound to a pointer with no entry behind it, such as nil: at
    the first lookup, or, for a stale entry, at the lookup after the scan.
    It has then taken the read lock and not released it. *)
Theorem IsOffline_panics_on_nil_entry s addr :
  let o := IsOffline C addr s in
  ((exists msg, result o = Panic msg) <->
   exists p, allHosts s !! addr = Some p /\
     (entryOf s p = None \/
      exists e p', entryOf s p = Some e /\
        uptimeThreshold < elapsedAt C (ticks s) (LastScanned e) /\
        allHosts (afterScan C s p) !! addr = Some p' /\
        entryOf (afterScan C s p) p' = None)) /\
  ((exists msg, result o = Panic msg) -> last (events o) = Some EvRLock).
Proof.
  intros o. subst o. rewrite IsOffline_outcome.
  destruct (allHosts s !! addr) as [p|] eqn:Hl.
  2:{ split; [split|]; [intros [? ?]; done|intros (? & ? & _); done|intros [? ?]; done]. }
  destruct (entryOf s p) as [e|] eqn:He.
  2:{ split; [split|]; [intros _; eauto|eauto|done]. }
  assert (Hinv : forall p0 (Q : hostEntry -> ptr -> Prop),
            Some p = Some p0 ->
            (entryOf s p0 = None \/
             exists e0 p', entryOf s p0 = Some e0 /\ Q e0 p') ->
            exists p', Q e p').
  { intros p0 Q [= <-] [Hnone|(e0 & p' & He0 & HQ)]; [congruence|].
    rewrite He in He0. injection He0 as <-. eauto. }
  destruct (Z.gtb_spec (elapsedAt C (ticks s) (LastScanned e)) uptimeThreshold)
    as [Hstale|Hfresh].
  2:{ split; [split|]; [intros [? ?]; done| |intros [? ?]; done].
      intros (p0 & Hp0 & Hcase).
      destruct (Hinv p0 _ Hp0 Hcase) as (p' & Hlt & _). lia. }
  cbv zeta.
  destruct (allHosts (afterScan C s p) !! addr) as [p'|] eqn:Hl'.
  2:{ split; [split|]; [intros [? ?]; done| |intros [? ?]; done].
      intros (p0 & Hp0 & Hcase).
      destruct (Hinv p0 _ Hp0 Hcase) as (p' & _ & Hsome & _). congruence. }
  destruct (entryOf (afterScan C s p) p') as [e'|] eqn:He'.
  - split; [split|]; [intros [? ?]; done| |intros [? ?]; done].
    intros (p0 & Hp0 & Hcase).
    destruct (Hinv p0 _ Hp0 Hcase) as (p0' & _ & Hsome & Hn). congruence.
  - split; [split|]; [|eauto|done].
    intros _. exists p. split; [done|]. right. exists e, p'. done.
Qed.

(** X16.  A host just created by [insertHost] has never been scanned: once
    the clock is more than the threshold past the zero time, [IsOffline]
    on its address scans it, with the pointer [insertHost] handed to the
    scan queue. *)
Theorem insertHost_then_IsOffline_scans s host :
  NetAddress_IsValid C (NetAddress host) = None ->
  allHosts s !! NetAddress host = None ->
  uptimeThreshold < elapsedAt C (ticks s) time.zero ->
  let o1 := insertHost C host s in
  let o2 := IsOffline C (NetAddress host) (final o1) in
  scanned (events o2) = queued (events o1) /\
  scanned (events o2) = [Some (fresh (dom (mem s)))].
Proof.
  intros Hv Hl Hstale o1 o2. subst o2 o1.
  rewrite (insertHost_absent C s host Hv Hl).
  rewrite IsOffline_outcome. simpl.
  rewrite lookup_insert_eq. simpl. rewrite lookup_insert_eq. simpl.
  destruct (Z.gtb_spec (elapsedAt C (ticks s) time.zero) uptimeThreshold); [|lia].
  cbv zeta.
  match goal with |- context [allHosts ?s1 !! NetAddress host] =>
    destruct (allHosts s1 !! NetAddress host) as [p'|];
      [destruct (entryOf s1 p')|] end; done.
Qed.

End LivenessAnywhere.

(** ** AverageContractPrice and ActiveHosts under the promise of RandomHosts *)

Section Sampling.

Context {Rest : Type} (C : Collaborators Rest).

Implicit Types (s : HostDB Rest) (hosts : list HostDBEntry).

Lemma totalContractPrice_bounds hosts (lo hi : N) :
  (forall h, h ∈ hosts -> (lo <= ContractPrice h <= hi)%N) ->
  (lo * N.of_nat (length hosts) <= totalContractPrice hosts
   <= hi * N.of_nat (length hosts))%N.
Proof.
  induction hosts as [|h hosts IH]; intros Hall; simpl; [lia|].
  assert (Hh : (lo <= ContractPrice h <= hi)%N) by (apply Hall; left).
  assert (IH' : (lo * N.of_nat (length hosts) <= totalContractPrice hosts
                 <= hi * N.of_nat (length hosts))%N)
    by (apply IH; intros h' Hin; apply Hall; now right).
  lia.
Qed.

(** X17.  When every host of a sample that is not empty advertises a
    contract price between two bounds, so does the average that
    [AverageContractPrice] returns. *)
Theorem AverageContractPrice_within_prices s (lo hi : N) :
  RandomHosts_bounded C ->
  (do_RandomHosts C 18 [] s).1 ≠ [] ->
  (forall h, h ∈ (do_RandomHosts C 18 [] s).1 -> (lo <= ContractPrice h <= hi)%N) ->
  exists avg,
    result (AverageContractPrice C s) = Ok avg /\ (lo <= avg <= hi)%N.
Proof.
  intros Hbound Hne Hprices. rewrite AverageContractPrice_outcome. cbv zeta.
  set (hosts := (do_RandomHosts C 18 [] s).1) in *. simpl.
  assert (Hlen : len hosts <= 18) by (apply Hbound; lia).
  assert (Hpos : 0 < len hosts) by (unfold len; destruct hosts; [done|simpl; lia]).
  destruct (Z.eqb_spec (len hosts) 0) as [E|_]; [lia|].
  rewrite uint64_small by lia.
  unfold types.Div64. destruct (Z.eqb_spec (len hosts) 0) as [E|_]; [lia|].
  unfold len. rewrite <- nat_N_Z, N2Z.id.
  eexists. split; [reflexivity|].
  pose proof (totalContractPrice_bounds hosts lo hi Hprices) as [Hlo Hhi].
  assert (Hn : N.of_nat (length hosts) ≠ 0%N) by (unfold len in Hpos; lia).
  split.
  - apply N.le_trans with (lo * N.of_nat (length hosts) / N.of_nat (length hosts))%N;
      [now rewrite N.div_mul|now apply N.Div0.div_le_mono].
  - apply N.le_trans with (hi * N.of_nat (length hosts) / N.of_nat (length hosts))%N;
      [now apply N.Div0.div_le_mono|now rewrite N.div_mul].
Qed.

(** X18.  When [RandomHosts] returns no more hosts than it is asked for,
    [ActiveHosts] returns no more hosts than there are in the active set,
    and none when the active set is empty. *)
Theorem ActiveHosts_at_most_active s :
  RandomHosts_bounded C ->
  exists hosts,
    result (ActiveHosts C s) = Ok hosts /\
    (length hosts <= size (activeHosts s))%nat /\
    (activeHosts s = ∅ -> hosts = []).
Proof.
  intros Hbound.
  exists (do_RandomHosts C (Z.of_nat (size (activeHosts s))) [] s).1.
  split; [reflexivity|].
  pose proof (Hbound (Z.of_nat (size (activeHosts s))) [] s (Nat2Z.is_nonneg _)) as Hle.
  unfold len in Hle. split; [lia|].
  intros Hempty. rewrite Hempty, map_size_empty in Hle |- *.
  destruct (do_RandomHosts C (Z.of_nat 0) [] s).1; [done|simpl in Hle; lia].
Qed.

End Sampling.

(** ** AllHosts *)

Section ListingLaws.

Context {Rest : Type} (C : Collaborators Rest).

Implicit Types (s : HostDB Rest) (addr : modules.NetAddress)
  (entries : list (string * ptr)) (order : list (string * ptr) -> list (string * ptr)).

Lemma AllHosts_range_ok s entries hosts :
  Forall (fun ap => is_Some (entryOf s ap.2)) entries ->
  AllHosts_range entries hosts s =
    mkOutcome
      (Ok (hosts ++ (entry_HostDBEntry <$> omap (fun ap => entryOf s ap.2) entries)))
      s [].
Proof.
  intros Hall. revert hosts.
  induction Hall as [|[a p] entries [e He] _ IH]; intros hosts; simpl.
  - now rewrite app_nil_r.
  - simpl in He. unfold bind, deref. rewrite He.
    destruct p as [l|]; [|done]. simpl in He. rewrite He. simpl.
    rewrite IH. simpl. now rewrite <- app_assoc.
Qed.

Lemma AllHosts_range_panic s entries hosts :
  Exists (fun ap => entryOf s ap.2 = None) entries ->
  AllHosts_range entries hosts s =
    mkOutcome (Panic "invalid memory address or nil pointer dereference") s [].
Proof.
  revert hosts. induction entries as [|[a p] entries IH]; intros hosts Hex.
  - now apply Exists_nil in Hex.
  - simpl. unfold bind, deref.
    destruct p as [l|]; [|reflexivity].
    destruct (mem s !! l) as [e|] eqn:He; [|reflexivity]. simpl.
    apply Exists_cons in Hex as [Hhere|Hlater]; [simpl in Hhere; congruence|].
    now rewrite (IH _ Hlater).
Qed.

Lemma AllHosts_outcome s order hosts r :
  AllHosts_range (order (map_to_list (allHosts s))) [] s = mkOutcome r s hosts ->
  AllHosts order s = mkOutcome r s ([EvRLock] ++ hosts ++ [EvRUnlock]).
Proof.
  intros Hrange. unfold AllHosts, bind, defer, get, RLock, RUnlock, emit; simpl.
  now rewrite Hrange.
Qed.

Lemma registry_ok_Forall s order :
  (forall l, order l ≡ₚ l) ->
  registry_ok s ->
  Forall (fun ap => is_Some (entryOf s ap.2)) (order (map_to_list (allHosts s))).
Proof.
  intros Hperm Hok. rewrite Hperm.
  apply map_Forall_to_list in Hok.
  eapply Forall_impl; [exact Hok|]. now intros [a p].
Qed.

Lemma length_omap_all {A B} (f : A -> option B) (l : list A) :
  Forall (fun x => is_Some (f x)) l -> length (omap f l) = length l.
Proof.
  induction 1 as [|x l [y Hy] _ IH]; [done|].
  change (omap f (x :: l)) with
    (match f x with Some y => y :: omap f l | None => omap f l end).
  rewrite Hy. simpl. now rewrite IH.
Qed.

Lemma Host_finds s addr x :
  result (Host addr s) = Ok (x, true) <->
  exists e, entryAt s addr = Some e /\ x = entry_HostDBEntry e.
Proof.
  rewrite Host_outcome; simpl. unfold entryAt.
  destruct (allHosts s !! addr) as [[l|]|].
  - destruct (mem s !! l) as [e|].
    + split; [intros [= <-]; eauto|intros (e' & [= <-] & ->); done].
    + split; [done|intros (e' & ? & _); done].
  - split; [done|intros (e' & ? & _); done].
  - split; [done|intros (e' & ? & _); done].
Qed.

Lemma registryEntries_elem s e :
  e ∈ registryEntries s <-> exists addr, entryAt s addr = Some e.
Proof.
  unfold registryEntries. rewrite list_elem_of_omap. split.
  - intros ([addr p] & Hin & He). apply elem_of_map_to_list in Hin.
    exists addr. rewrite entryAt_entryOf, Hin. exact He.
  - intros (addr & He). rewrite entryAt_entryOf in He.
    destruct (allHosts s !! addr) as [p|] eqn:Hl; [|done].
    exists (addr, p). split; [now apply elem_of_map_to_list|exact He].
Qed.

(** X19.  On a registry without nil pointers, in whatever order the map is
    visited, [AllHosts] returns normally a list with one [HostDBEntry] for
    each address of the registry: the entries' own, active or not.  It
    takes and releases the read lock and leaves the database as it was. *)
Theorem AllHosts_lists_registry s order :
  (forall l, order l ≡ₚ l) ->
  registry_ok s ->
  exists hosts,
    AllHosts order s = mkOutcome (Ok hosts) s [EvRLock; EvRUnlock] /\
    hosts ≡ₚ entry_HostDBEntry <$> registryEntries s /\
    length hosts = size (allHosts s).
Proof.
  intros Hperm Hok.
  pose proof (registry_ok_Forall s order Hperm Hok) as Hall.
  eexists. split; [|split].
  - apply (AllHosts_outcome s order []). now apply AllHosts_range_ok.
  - simpl. unfold registryEntries. now rewrite Hperm.
  - simpl. rewrite length_fmap, length_omap_all by exact Hall.
    now rewrite Hperm, length_map_to_list.
Qed.

(** X20.  On a registry without nil pointers, [AllHosts] lists exactly what
    [Host] can find: a [HostDBEntry] is in the list if and only if [Host]
    returns it, with true, for some address. *)
Theorem AllHosts_agrees_with_Host s order x :
  (forall l, order l ≡ₚ l) ->
  registry_ok s ->
  exists hosts,
    result (AllHosts order s) = Ok hosts /\
    (x ∈ hosts <-> exists addr, result (Host addr s) = Ok (x, true)).
Proof.
  intros Hperm Hok.
  pose proof (registry_ok_Forall s order Hperm Hok) as Hall.
  eexists. split.
  - rewrite (AllHosts_outcome s order [] _ (AllHosts_range_ok s _ [] Hall)).
    reflexivity.
  - simpl. rewrite Hperm. fold (registryEntries s). rewrite list_elem_of_fmap.
    split.
    + intros (e & -> & He). apply registryEntries_elem in He as (addr & He).
      exists addr. apply Host_finds. eauto.
    + intros (addr & (e & He & ->)%Host_finds).
      exists e. split; [done|]. apply registryEntries_elem. eauto.
Qed.

(** X21.  When some address of the registry is bound to a pointer with no
    entry behind it, such as nil, [AllHosts] panics in whatever order the
    map is visited; its deferred unlock still releases the read lock, and
    the database is as it was. *)
Theorem AllHosts_panics_on_nil_entry s order addr p :
  (forall l, order l ≡ₚ l) ->
  allHosts s !! addr = Some p ->
  entryOf s p = None ->
  AllHosts order s =
    mkOutcome (Panic "invalid memory address or nil pointer dereference") s
      [EvRLock; EvRUnlock].
Proof.
  intros Hperm Hl Hnone.
  apply (AllHosts_outcome s order []). apply AllHosts_range_panic.
  apply Exists_exists. exists (addr, p). split; [|exact Hnone].
  rewrite Hperm. now apply elem_of_map_to_list.
Qed.

(** X22.  On a registry without nil pointers whose entries are bound under
    their own addresses, after [removeHost] of an address [AllHosts] lists
    no host with that address. *)
Theorem removeHost_then_AllHosts s order addr :
  (forall l, order l ≡ₚ l) ->
  registry_ok s -> keyed s ->
  exists hosts,
    result (AllHosts order (final (removeHost C addr s))) = Ok hosts /\
    forall x, x ∈ hosts -> NetAddress x ≠ addr.
Proof.
  intros Hperm Hok Hkeyed.
  set (s' := final (removeHost C addr s)).
  assert (Hok' : registry_ok s') by now apply removeHost_registry_ok.
  assert (Hkeyed' : keyed s') by now apply removeHost_keyed.
  pose proof (registry_ok_Forall s' order Hperm Hok') as Hall.
  eexists. split.
  - rewrite (AllHosts_outcome s' order [] _ (AllHosts_range_ok s' _ [] Hall)).
    reflexivity.
  - simpl. intros x Hx. rewrite Hperm in Hx. fold (registryEntries s') in Hx.
    apply list_elem_of_fmap in Hx as (e & -> & He).
    apply registryEntries_elem in He as (a & He).
    rewrite entryAt_entryOf in He.
    destruct (allHosts s' !! a) as [p|] eqn:Hl; [|done]. simpl in He.
    pose proof (Hkeyed' a p Hl) as Hk. cbv beta in Hk. rewrite He in Hk.
    rewrite Hk. intros ->.
    subst s'. destruct (removeHost_maps C s addr) as (_ & Hdel & _).
    rewrite Hdel, lookup_delete_eq in Hl. done.
Qed.

End ListingLaws.

(** ** The further properties at the sample databases *)

Lemma Tidy_registry_ok : registry_ok Tidy.db.
Proof.
  unfold registry_ok; simpl. unfold Tidy.hosts.
  repeat (apply map_Forall_insert_2; [vm_compute; eauto|]).
  apply map_Forall_empty.
Qed.

Lemma Tidy_keyed : keyed Tidy.db.
Proof.
  unfold keyed; simpl. unfold Tidy.hosts.
  repeat (apply map_Forall_insert_2; [vm_compute; reflexivity|]).
  apply map_Forall_empty.
Qed.

Lemma Tidy_active_known : active_known Tidy.db.
Proof.
  unfold active_known; simpl. unfold Sample.knownActive, Tidy.hosts.
  rewrite !dom_insert_L, dom_empty_L.
  intros a [Ha|Ha]%elem_of_union; [|now apply elem_of_empty in Ha].
  apply elem_of_union. now left.
Qed.

Lemma rev_order {A} (l : list A) : rev l ≡ₚ l.
Proof. symmetry. apply Permutation_rev. Qed.

(** Host B's address offered with another key to the tidy database. *)
Lemma insertHost_keeps_registry_ok_witness :
  let P := Sample.package Sample.scanIdle [] in
  registry_ok Tidy.db /\
  result (insertHost P Sample.hostA' Tidy.db) = Ok tt /\
  registry_ok (final (insertHost P Sample.hostA' Tidy.db)).
Proof.
  intros P.
  pose proof (insertHost_keeps_registry_ok P Tidy.db Sample.hostA' Tidy_registry_ok)
    as H.
  cbv zeta in H. exact (conj Tidy_registry_ok H).
Defined.

Lemma insertHost_keeps_keyed_witness :
  let P := Sample.package Sample.scanIdle [] in
  registry_ok Tidy.db /\ keyed Tidy.db /\
  keyed (final (insertHost P Sample.hostA' Tidy.db)).
Proof.
  intros P.
  exact (conj Tidy_registry_ok (conj Tidy_keyed
           (insertHost_keeps_keyed P Tidy.db Sample.hostA' Tidy_registry_ok Tidy_keyed))).
Defined.

Lemma active_known_kept_witness :
  let P := Sample.package Sample.scanIdle [] in
  active_known Tidy.db /\
  active_known (final (insertHost P Sample.hostB Tidy.db)) /\
  active_known (final (removeHost P "a.example:9982" Tidy.db)).
Proof.
  intros P.
  exact (conj Tidy_active_known
           (active_known_kept P Tidy.db Sample.hostB "a.example:9982"
              Tidy_active_known)).
Defined.

Lemma removeHost_keeps_registry_sound_witness :
  let P := Sample.package Sample.scanIdle [] in
  registry_ok Tidy.db /\ keyed Tidy.db /\
  registry_ok (final (removeHost P "a.example:9982" Tidy.db)) /\
  keyed (final (removeHost P "a.example:9982" Tidy.db)).
Proof.
  intros P.
  pose proof (removeHost_keeps_registry_sound P Tidy.db "a.example:9982"
                Tidy_registry_ok Tidy_keyed) as H.
  cbv zeta in H. destruct H as (Hok & Hkeyed & _).
  exact (conj Tidy_registry_ok (conj Tidy_keyed (conj Hok Hkeyed))).
Defined.

(** Host A is known under the same key and found as it was; a host at a
    new address is found as offered. *)
Lemma insertHost_then_Host_witness :
  let P := Sample.package Sample.scanIdle [] in
  let new := mkHostDBEntry "c.example:9982" 9%N [] Sample.key1 in
  registry_ok Tidy.db /\
  NetAddress_IsValid P (NetAddress new) = None /\
  allHosts Tidy.db !! NetAddress new = None /\
  result (Host (NetAddress new) (final (insertHost P new Tidy.db))) = Ok (new, true).
Proof.
  intros P new.
  assert (H1 : NetAddress_IsValid P (NetAddress new) = None) by reflexivity.
  assert (H2 : allHosts Tidy.db !! NetAddress new = None) by (vm_compute; reflexivity).
  destruct (insertHost_then_Host P Tidy.db new Tidy_registry_ok H1)
    as (x & Hx & _ & Hnew).
  rewrite (Hnew H2) in Hx.
  exact (conj Tidy_registry_ok (conj H1 (conj H2 Hx))).
Defined.


(** Host B has never been scanned; the scan finds it and stamps it with
    the time of the second reading of the clock, so it is not offline. *)
Lemma IsOffline_reads_LastSeen_after_scan_witness :
  let P := Sample.package (Tidy.scanSeen (Sample.clock 1)) [] in
  let e' := mkHostEntry Sample.hostB 95%N 0%N 20%N (Sample.clock 1) (Sample.clock 1) in
  allHosts Tidy.db !! "b.example:9982"%string = Some (Some 2%positive) /\
  entryOf Tidy.db (Some 2%positive) = Some Sample.entryB /\
  uptimeThreshold < elapsedAt P (ticks Tidy.db) (LastScanned Sample.entryB) /\
  entryAt (afterScan P Tidy.db (Some 2%positive)) "b.example:9982" = Some e' /\
  result (IsOffline P "b.example:9982" Tidy.db) = Ok false /\
  scanned (events (IsOffline P "b.example:9982" Tidy.db)) = [Some 2%positive].
Proof.
  intros P e'.
  assert (H1 : allHosts Tidy.db !! "b.example:9982"%string = Some (Some 2%positive))
    by (vm_compute; reflexivity).
  assert (H2 : entryOf Tidy.db (Some 2%positive) = Some Sample.entryB)
    by (vm_compute; reflexivity).
  assert (H3 : uptimeThreshold < elapsedAt P (ticks Tidy.db) (LastScanned Sample.entryB))
    by (vm_compute; reflexivity).
  assert (H4 : entryAt (afterScan P Tidy.db (Some 2%positive)) "b.example:9982" = Some e')
    by (vm_compute; reflexivity).
  pose proof (IsOffline_reads_LastSeen_after_scan P Tidy.db _ _ _ _ H1 H2 H3 H4) as H.
  cbv zeta in H. destruct H as (Hscan & _ & _ & _ & Hfalse).
  refine (conj H1 (conj H2 (conj H3 (conj H4 (conj _ Hscan))))).
  apply Hfalse. vm_compute. discriminate.
Defined.

(** A new host is inserted into the tidy database and then asked about. *)
Lemma insertHost_then_IsOffline_scans_witness :
  let P := Sample.package Sample.scanIdle [] in
  let new := mkHostDBEntry "c.example:9982" 9%N [] Sample.key1 in
  NetAddress_IsValid P (NetAddress new) = None /\
  allHosts Tidy.db !! NetAddress new = None /\
  uptimeThreshold < elapsedAt P (ticks Tidy.db) time.zero /\
  scanned (events (IsOffline P (NetAddress new) (final (insertHost P new Tidy.db)))) =
    queued (events (insertHost P new Tidy.db)).
Proof.
  intros P new.
  assert (H1 : NetAddress_IsValid P (NetAddress new) = None) by reflexivity.
  assert (H2 : allHosts Tidy.db !! NetAddress new = None) by (vm_compute; reflexivity).
  assert (H3 : uptimeThreshold < elapsedAt P (ticks Tidy.db) time.zero)
    by (vm_compute; reflexivity).
  pose proof (insertHost_then_IsOffline_scans P Tidy.db new H1 H2 H3) as H.
  cbv zeta in H. destruct H as (Heq & _).
  exact (conj H1 (conj H2 (conj H3 Heq))).
Defined.

(** A sample of two hosts, priced 30 and 11. *)
Lemma AverageContractPrice_within_prices_witness :
  let P := Sample.package Sample.scanIdle [Sample.hostA; Sample.hostB] in
  RandomHosts_bounded P /\
  (do_RandomHosts P 18 [] Tidy.db).1 ≠ [] /\
  (forall h, h ∈ (do_RandomHosts P 18 [] Tidy.db).1 ->
     (11 <= ContractPrice h <= 30)%N) /\
  exists avg, result (AverageContractPrice P Tidy.db) = Ok avg /\ (11 <= avg <= 30)%N.
Proof.
  intros P.
  assert (H1 : RandomHosts_bounded P) by apply pick_bounded.
  assert (H2 : (do_RandomHosts P 18 [] Tidy.db).1 ≠ []) by (vm_compute; discriminate).
  assert (H3 : forall h, h ∈ (do_RandomHosts P 18 [] Tidy.db).1 ->
                 (11 <= ContractPrice h <= 30)%N).
  { intros h Hh.
    change ((do_RandomHosts P 18 [] Tidy.db).1) with [Sample.hostA; Sample.hostB] in Hh.
    apply elem_of_cons in Hh as [->|Hh]; [simpl; lia|].
    apply elem_of_cons in Hh as [->|Hh]; [simpl; lia|].
    now apply elem_of_nil in Hh. }
  exact (conj H1 (conj H2 (conj H3
           (AverageContractPrice_within_prices P Tidy.db 11 30 H1 H2 H3)))).
Defined.

Lemma ActiveHosts_at_most_active_witness :
  let P := Sample.package Sample.scanIdle [Sample.hostA; Sample.hostB] in
  RandomHosts_bounded P /\
  exists hosts,
    result (ActiveHosts P Tidy.db) = Ok hosts /\
    (length hosts <= size (activeHosts Tidy.db))%nat.
Proof.
  intros P.
  destruct (ActiveHosts_at_most_active P Tidy.db (pick_bounded _ _))
    as (hosts & Hr & Hlen & _).
  refine (conj (pick_bounded _ _) _). exists hosts. exact (conj Hr Hlen).
Defined.

(** The tidy database listed in the reverse of the map's order. *)
Lemma AllHosts_lists_registry_witness :
  (forall l : list (string * ptr), rev l ≡ₚ l) /\
  registry_ok Tidy.db /\
  exists hosts,
    AllHosts (@rev _) Tidy.db = mkOutcome (Ok hosts) Tidy.db [EvRLock; EvRUnlock] /\
    length hosts = 2%nat.
Proof.
  destruct (AllHosts_lists_registry Tidy.db (@rev _) rev_order Tidy_registry_ok)
    as (hosts & Ho & _ & Hlen).
  refine (conj rev_order (conj Tidy_registry_ok _)).
  exists hosts. refine (conj Ho _). rewrite Hlen. vm_compute. reflexivity.
Defined.

Lemma AllHosts_agrees_with_Host_witness :
  (forall l : list (string * ptr), rev l ≡ₚ l) /\
  registry_ok Tidy.db /\
  exists hosts,
    result (AllHosts (@rev _) Tidy.db) = Ok hosts /\ Sample.hostB ∈ hosts.
Proof.
  destruct (AllHosts_agrees_with_Host Tidy.db (@rev _) Sample.hostB rev_order Tidy_registry_ok)
    as (hosts & Hr & Hiff).
  refine (conj rev_order (conj Tidy_registry_ok _)).
  exists hosts. refine (conj Hr _).
  apply Hiff. exists "b.example:9982"%string. vm_compute. reflexivity.
Defined.

(** The sample database with the nil pointer cannot be listed. *)
Lemma AllHosts_panics_on_nil_entry_witness :
  (forall l : list (string * ptr), rev l ≡ₚ l) /\
  allHosts Sample.known !! "n.example:9982"%string = Some None /\
  entryOf Sample.known None = None /\
  AllHosts (@rev _) Sample.known =
    mkOutcome (Panic "invalid memory address or nil pointer dereference")
      Sample.known [EvRLock; EvRUnlock].
Proof.
  assert (H1 : allHosts Sample.known !! "n.example:9982"%string = Some None)
    by (vm_compute; reflexivity).
  assert (H2 : entryOf Sample.known None = None) by reflexivity.
  exact (conj rev_order (conj H1 (conj H2
           (AllHosts_panics_on_nil_entry Sample.known (@rev _) _ _ rev_order H1 H2)))).
Defined.

Lemma removeHost_then_AllHosts_witness :
  let P := Sample.package Sample.scanIdle [] in
  (forall l : list (string * ptr), rev l ≡ₚ l) /\
  registry_ok Tidy.db /\ keyed Tidy.db /\
  exists hosts,
    result (AllHosts (@rev _) (final (removeHost P "a.example:9982" Tidy.db))) = Ok hosts /\
    Sample.hostA ∉ hosts.
Proof.
  intros P.
  destruct (removeHost_then_AllHosts P Tidy.db (@rev _) "a.example:9982"
              rev_order Tidy_registry_ok Tidy_keyed) as (hosts & Hr & Hno).
  refine (conj rev_order (conj Tidy_registry_ok (conj Tidy_keyed _))).
  exists hosts. refine (conj Hr _).
  intros Hin. now apply (Hno _ Hin).
Defined.
